(** * regolith: the add-presentation helper

    A shallow embedding of [regolith/helpers/a_presentationhelper.py]
    ([PresentationAdderHelper.db_updater]) and the properties of its key
    derivation, duplicate guard, record builder, calendar notifier and
    persistence steps.

    Conventions of the model.
    - Python [str] values are Rocq [string]s read as ASCII text: the
      whitespace test and the case folding below are Python's on the
      code points 0..127; a character above 127 is kept as it is and is
      not whitespace.
    - Documents (Python dicts) are [gmap string value].
    - The run control object [rc] is a record threaded through a state
      and exception monad, together with the document store and the log
      of the calls made to the collaborators (calendar, store, printer,
      expense constructor).
    - The [while] loop of the calendar notifier takes fuel; running out
      of fuel is the outcome [OutOfFuel], which is not a result of the
      program. *)

From Stdlib Require Import Ascii String DecimalString.
From stdpp Require Import gmap strings list.

Local Open Scope string_scope.
Local Open Scope list_scope.

(** ** Python string primitives *)

Module PyStr.

(** [str.isspace] on one ASCII character: TAB..CR, FS..US and the space. *)
Definition isspace (c : ascii) : bool :=
  let n := nat_of_ascii c in
  ((9 <=? n)%nat && (n <=? 13)%nat) || ((28 <=? n)%nat && (n <=? 32)%nat).

(** [str.casefold] on one ASCII character. *)
Definition casefold_char (c : ascii) : ascii :=
  let n := nat_of_ascii c in
  if ((65 <=? n)%nat && (n <=? 90)%nat) then ascii_of_nat (n + 32) else c.

Fixpoint casefold (s : string) : string :=
  match s with
  | EmptyString => EmptyString
  | String c s' => String (casefold_char c) (casefold s')
  end.

(** [s.lstrip()], [s.rstrip()] and [s.strip()] with no argument. *)
Fixpoint lstrip (s : string) : string :=
  match s with
  | EmptyString => EmptyString
  | String c s' => if isspace c then lstrip s' else s
  end.

Fixpoint rstrip (s : string) : string :=
  match s with
  | EmptyString => EmptyString
  | String c s' =>
      match rstrip s' with
      | EmptyString => if isspace c then EmptyString else String c EmptyString
      | r => String c r
      end
  end.

Definition strip (s : string) : string := rstrip (lstrip s).

(** [s.split()] with no argument: the maximal runs of non-whitespace
    characters, in order.  [cur] is the run being read, reversed. *)
Fixpoint split_aux (cur : string) (s : string) : list string :=
  match s with
  | EmptyString =>
      match cur with
      | EmptyString => []
      | _ => [String.rev cur]
      end
  | String c s' =>
      if isspace c then
        match cur with
        | EmptyString => split_aux EmptyString s'
        | _ => String.rev cur :: split_aux EmptyString s'
        end
      else split_aux (String c cur) s'
  end.

Definition split (s : string) : list string := split_aux EmptyString s.

(** ["".join(l)]. *)
Fixpoint join (l : list string) : string :=
  match l with
  | [] => EmptyString
  | t :: l' => t +:+ join l'
  end.

(** The slices [s[:n]] and [s[n:]]. *)
Fixpoint take_str (n : nat) (s : string) : string :=
  match n, s with
  | S n', String c s' => String c (take_str n' s')
  | _, _ => EmptyString
  end.

Fixpoint drop_str (n : nat) (s : string) : string :=
  match n, s with
  | S n', String _ s' => drop_str n' s'
  | _, _ => s
  end.


(** [str(n)] for an integer. *)
Definition str_int (n : Z) : string := NilZero.string_of_int (Z.to_int n).

(** One decimal digit, and a number from 0 to 99 written with two digits. *)
Definition digit (d : Z) : ascii := ascii_of_N (Z.to_N (48 + d)).

Definition two_digits (n : Z) : string :=
  String (digit (n / 10)) (String (digit (n mod 10)) EmptyString).

(** Python truthiness of a string that may be [None]. *)
Definition truthy (o : option string) : bool :=
  match o with
  | Some s => negb (String.eqb s "")
  | None => false
  end.

End PyStr.

(** ** Data model *)

(** [datetime.date]: the constructor accepts a year, month and day only
    in these ranges, so every date the helper holds satisfies them. *)
Definition is_leap (y : Z) : bool :=
  ((y mod 4 =? 0)%Z && (negb (y mod 100 =? 0)%Z || (y mod 400 =? 0)%Z)).

Definition days_in_month (y m : Z) : Z :=
  match m with
  | 2 => if is_leap y then 29 else 28
  | 4 | 6 | 9 | 11 => 30
  | _ => 31
  end%Z.

Definition valid_ymd (y m d : Z) : bool :=
  (1 <=? y)%Z && (y <=? 9999)%Z && (1 <=? m)%Z && (m <=? 12)%Z
  && (1 <=? d)%Z && (d <=? days_in_month y m)%Z.

Record date : Type := mkdate {
  year : Z;
  month : Z;
  day : Z;
  date_ok : valid_ymd year month day = true
}.

(** [d.strftime('%m')]: the month as a zero-padded decimal number. *)
Definition strftime_m (d : date) : string := PyStr.two_digits (month d).

(** Values stored in a document, and documents. *)
Inductive value : Type :=
| VStr (s : string)
| VBool (b : bool)
| VList (l : list string)
| VDate (d : date).

Abbreviation doc := (gmap string value).

(** [v == key] for a string [key]: a value that is not a string differs
    from every string. *)
Definition value_eq_str (v : value) (key : string) : bool :=
  match v with
  | VStr s => String.eqb s key
  | _ => false
  end.

Definition TARGET_COLL : string := "presentations".
Definition EXPENSES_COLL : string := "expenses".

(** The run control object as [db_updater] finds it: the arguments of
    [subparser], the [default_user_id] of the user configuration ([None]
    when the attribute is absent), the [coll] and [database] set by
    [construct_global_ctx], and the attributes [db_updater] sets for the
    expense constructor ([None] until they are set). *)
Record rc : Type := mkrc {
  rc_name : string;
  rc_place : string;
  rc_begin_date : string;
  rc_end_date : string;
  rc_title : string;
  rc_abstract : string;
  rc_person : option string;
  rc_authors : option (list string);
  rc_notes : option (list string);
  rc_status : string;
  rc_type : string;
  rc_webinar : bool;
  rc_no_expense : bool;
  rc_database : string;
  rc_id : option string;
  rc_no_cal : bool;
  rc_default_user_id : option string;
  rc_coll : string;
  rc_business : option bool;
  rc_payee : option string;
  rc_purpose : option string;
  rc_where : option string
}.

(** Python truthiness of a list that may be [None]. *)
Definition truthy_list (o : option (list string)) : bool :=
  match o with
  | Some (_ :: _) => true
  | _ => false
  end.

(** Attribute assignments [rc.x = v]. *)
Definition set_person (v : string) (r : rc) : rc :=
  mkrc (rc_name r) (rc_place r) (rc_begin_date r) (rc_end_date r) (rc_title r)
    (rc_abstract r) (Some v) (rc_authors r) (rc_notes r)
    (rc_status r) (rc_type r) (rc_webinar r) (rc_no_expense r) (rc_database r)
    (rc_id r) (rc_no_cal r) (rc_default_user_id r) (rc_coll r) (rc_business r)
    (rc_payee r) (rc_purpose r) (rc_where r).

Definition set_no_expense (v : bool) (r : rc) : rc :=
  mkrc (rc_name r) (rc_place r) (rc_begin_date r) (rc_end_date r) (rc_title r)
    (rc_abstract r) (rc_person r) (rc_authors r) (rc_notes r)
    (rc_status r) (rc_type r) (rc_webinar r) v (rc_database r)
    (rc_id r) (rc_no_cal r) (rc_default_user_id r) (rc_coll r) (rc_business r)
    (rc_payee r) (rc_purpose r) (rc_where r).

Definition set_status (v : string) (r : rc) : rc :=
  mkrc (rc_name r) (rc_place r) (rc_begin_date r) (rc_end_date r) (rc_title r)
    (rc_abstract r) (rc_person r) (rc_authors r) (rc_notes r)
    v (rc_type r) (rc_webinar r) (rc_no_expense r) (rc_database r)
    (rc_id r) (rc_no_cal r) (rc_default_user_id r) (rc_coll r) (rc_business r)
    (rc_payee r) (rc_purpose r) (rc_where r).

(** The four expense attributes [business], [payee], [purpose], [where]. *)
Definition set_expense_attrs (b : bool) (payee purpose where_ : string) (r : rc) : rc :=
  mkrc (rc_name r) (rc_place r) (rc_begin_date r) (rc_end_date r) (rc_title r)
    (rc_abstract r) (rc_person r) (rc_authors r) (rc_notes r)
    (rc_status r) (rc_type r) (rc_webinar r) (rc_no_expense r) (rc_database r)
    (rc_id r) (rc_no_cal r) (rc_default_user_id r) (rc_coll r) (Some b)
    (Some payee) (Some purpose) (Some where_).

(** The event handed to the calendar. *)
Record cal_event : Type := mkevent {
  ev_summary : string;
  ev_location : string;
  ev_start : string;
  ev_end : string
}.

(** Calls made to the collaborators, in the order they are made. *)
Inductive call : Type :=
| AddToGoogleCalendar (e : cal_event) (ok : bool)
| GoogleCalAuthFlow
| Sleep (secs : nat)
| InsertOne (db coll : string) (d : doc)
| Print (line : string)
| ExpenseConstructor (key : string) (b e : date) (ctx : rc).

Inductive exn : Type :=
| RuntimeError (msg : string)
| IndexError
| KeyError (k : string)
| ParserError.

(** The collaborators and the snapshot [self.gtx[rc.coll]].
    [add_to_google_calendar n e] is the answer of the calendar to its
    [n]-th call (counted from 0); [date_parser_parse s] is
    [dateutil.parser.parse(s).date()], [None] when it raises. *)
Record env : Type := mkenv {
  add_to_google_calendar : nat -> cal_event -> bool;
  date_parser_parse : string -> option date;
  expense_constructor : string -> date -> date -> rc -> doc;
  gtx_coll : list doc
}.

(** The mutable part: [rc], the number of calendar calls made, the
    documents written to the store and the log of calls. *)
Record state : Type := mkstate {
  st_rc : rc;
  st_cal_calls : nat;
  st_store : list (string * string * doc);
  st_log : list call
}.

(** ** The state and exception monad *)

Inductive outcome (A : Type) : Type :=
| Return (a : A)
| Raise (e : exn)
| OutOfFuel.

Arguments Return {A} a.
Arguments Raise {A} e.
Arguments OutOfFuel {A}.

Definition M (A : Type) : Type := state -> outcome A * state.

Definition ret {A} (a : A) : M A := fun s => (Return a, s).

Definition bind {A B} (m : M A) (k : A -> M B) : M B :=
  fun s =>
    match m s with
    | (Return a, s') => k a s'
    | (Raise e, s') => (Raise e, s')
    | (OutOfFuel, s') => (OutOfFuel, s')
    end.

Definition raise {A} (e : exn) : M A := fun s => (Raise e, s).
Definition out_of_fuel {A} : M A := fun s => (OutOfFuel, s).

Declare Scope py_scope.
Delimit Scope py_scope with py.
Notation "x <- m ;; k" := (bind m (fun x => k))
  (at level 100, m at next level, right associativity) : py_scope.
Notation "m ;;; k" := (bind m (fun _ => k))
  (at level 100, right associativity) : py_scope.
Local Open Scope py_scope.

Definition get_rc : M rc := fun s => (Return (st_rc s), s).

Definition modify_rc (f : rc -> rc) : M unit :=
  fun s => (Return tt, mkstate (f (st_rc s)) (st_cal_calls s) (st_store s) (st_log s)).

Definition log_call (c : call) : M unit :=
  fun s => (Return tt, mkstate (st_rc s) (st_cal_calls s) (st_store s) (st_log s ++ [c])).

(** ** Collaborators as monadic operations *)

(** [add_to_google_calendar(event)]: the calendar answers its calls in
    turn; the call and its answer are logged. *)
Definition add_cal (E : env) (e : cal_event) : M bool :=
  fun s =>
    let ok := add_to_google_calendar E (st_cal_calls s) e in
    (Return ok,
     mkstate (st_rc s) (S (st_cal_calls s)) (st_store s)
       (st_log s ++ [AddToGoogleCalendar e ok])).

Definition google_cal_auth_flow : M unit := log_call GoogleCalAuthFlow.

Definition time_sleep (secs : nat) : M unit := log_call (Sleep secs).

Definition print (line : string) : M unit := log_call (Print line).

(** [rc.client.insert_one(db, coll, d)]: the document reaches the store. *)
Definition insert_one (db coll : string) (d : doc) : M unit :=
  fun s =>
    (Return tt,
     mkstate (st_rc s) (st_cal_calls s) (st_store s ++ [(db, coll, d)])
       (st_log s ++ [InsertOne db coll d])).

(** [date_parser.parse(s).date()]. *)
Definition parse_date (E : env) (s : string) : M date :=
  match date_parser_parse E s with
  | Some d => ret d
  | None => raise ParserError
  end.

(** [expense_constructor(key, begin_date, end_date, rc)], called with
    the [rc] of the moment. *)
Definition call_expense_constructor (E : env) (key : string) (b e : date) : M doc :=
  fun s =>
    (Return (expense_constructor E key b e (st_rc s)),
     mkstate (st_rc s) (st_cal_calls s) (st_store s)
       (st_log s ++ [ExpenseConstructor key b e (st_rc s)])).

(** ** Indexing *)

(** [l[0]] is [head l], [l[-1]] is [last l] and [s[0]] is [str_first s];
    where they are [None], Python raises [IndexError]. *)
Definition str_first (s : string) : option string :=
  match s with
  | String c _ => Some (String c EmptyString)
  | EmptyString => None
  end.

Definition idx {A} (o : option A) : M A :=
  match o with
  | Some x => ret x
  | None => raise IndexError
  end.

(** [doc[k]]; a missing key raises [KeyError]. *)
Definition getitem (d : doc) (k : string) : M value :=
  match d !! k with
  | Some v => ret v
  | None => raise (KeyError k)
  end.

(** [list(filter(lambda doc: doc["_id"] == key, coll))]. *)
Fixpoint filter_id (key : string) (coll : list doc) : M (list doc) :=
  match coll with
  | [] => ret []
  | d :: coll' =>
      v <- getitem d "_id" ;;
      rest <- filter_id key coll' ;;
      ret (if value_eq_str v key then d :: rest else rest)
  end.

(** ** The steps of [db_updater] *)

Definition NO_PERSON_MSG : string :=
  "WARNING: no person been set. please rerun specifying authors,or add your id, e.g., sbillinge, to the config.json file in ~/.config/regolith".

Definition EXISTS_MSG : string :=
  "This entry appears to already exist in the collection".

(** Lines 140-143: the retry loop, entered with [wait_bool, jump = 0, 0]. *)
Fixpoint retry_loop (E : env) (event : cal_event) (fuel : nat)
    (wait_bool : bool) (jump : nat) : M unit :=
  if negb wait_bool || (jump =? 60)%nat then
    match fuel with
    | O => out_of_fuel
    | S fuel' =>
        time_sleep 1 ;;;
        wait_bool' <- add_cal E event ;;
        retry_loop E event fuel' wait_bool' (jump + 1)
    end
  else ret tt.

(** Lines 129-143: the calendar notifier. *)
Definition calendar_notifier (E : env) (fuel : nat) : M unit :=
  r <- get_rc ;;
  if negb (rc_no_cal r) then
    let event := mkevent (rc_name r) (rc_place r) (rc_begin_date r) (rc_end_date r) in
    cal_update_bool <- add_cal E event ;;
    if negb cal_update_bool then
      google_cal_auth_flow ;;;
      retry_loop E event fuel false 0
    else ret tt
  else ret tt.

(** Lines 150-157: the presenter, from the command line or the
    configuration. *)
Definition resolve_person : M string :=
  r <- get_rc ;;
  if negb (PyStr.truthy (rc_person r)) then
    match rc_default_user_id r with
    | Some u => modify_rc (set_person u) ;;; ret u
    | None => raise (RuntimeError NO_PERSON_MSG)
    end
  else ret (default "" (rc_person r)).

(** Lines 158-162: the initials; [None] where an index is out of range. *)
Definition name_key (person : string) : option string :=
  let split_person := PyStr.split (PyStr.strip person) in
  if (2 <=? length split_person)%nat then
    a ← head split_person ≫= str_first;
    b ← last split_person ≫= str_first;
    Some (PyStr.casefold a +:+ PyStr.casefold b)
  else
    tok ← head split_person;
    Some (PyStr.casefold (PyStr.take_str 2 tok)).

(** Line 165: the key derived from the date, the initials and the place. *)
Definition derived_key (begin_date : date) (name_key place : string) : string :=
  PyStr.drop_str 2 (PyStr.str_int (year begin_date))
  +:+ strftime_m begin_date
  +:+ name_key
  +:+ "_"
  +:+ PyStr.strip (PyStr.join (PyStr.split (PyStr.casefold place))).

(** Lines 164-167. *)
Definition key_of (r : rc) (begin_date : date) (name_key : string) : string :=
  if negb (PyStr.truthy (rc_id r)) then derived_key begin_date name_key (rc_place r)
  else default "" (rc_id r).

(** Lines 169-175: the duplicate guard; it leaves the empty record. *)
Definition duplicate_guard (E : env) (key : string) : M doc :=
  pdocl <- filter_id key (gtx_coll E) ;;
  if (0 <? length pdocl)%nat then raise (RuntimeError EXISTS_MSG)
  else ret (∅ : doc).

(** [d.update({k1: v1, ...})]. *)
Definition update (d : doc) (kvs : list (string * value)) : doc :=
  foldl (fun acc kv => <[kv.1 := kv.2]> acc) d kvs.

(** Lines 178-181. *)
Definition authors_of (r : rc) (person : string) : list string :=
  if negb (truthy_list (rc_authors r)) then [person] else default [] (rc_authors r).

(** Lines 183-204: the record, from the empty record [pdoc]. *)
Definition build_pdoc (r : rc) (key : string) (authors : list string)
    (begin_date end_date : date) (pdoc : doc) : doc :=
  let pdoc := update pdoc [("_id", VStr key);
                           ("abstract", VStr (rc_abstract r));
                           ("authors", VList authors);
                           ("begin_date", VDate begin_date);
                           ("end_date", VDate end_date)] in
  let pdoc := if truthy_list (rc_notes r)
              then update pdoc [("notes", VList (default [] (rc_notes r)))]
              else pdoc in
  let pdoc := if rc_webinar r then update pdoc [("webinar", VBool true)] else pdoc in
  let pdoc := if bool_decide (rc_type r ∈ ["seminar"; "colloquium"])
              then update pdoc [("institution", VStr (rc_place r));
                                ("department", VStr (rc_name r))]
              else update pdoc [("location", VStr (rc_place r));
                                ("meeting_name", VStr (rc_name r))] in
  update pdoc [("project", VList ["all"]);
               ("status", VStr (rc_status r));
               ("title", VStr (rc_title r));
               ("type", VStr (rc_type r))].

(** Line 212. *)
Definition purpose_of (r : rc) : string :=
  "give " +:+ rc_type r +:+ " presentation at " +:+ rc_name r +:+ ", " +:+ rc_place r.

(** Lines 209-217: the companion expense. *)
Definition add_expense (E : env) (key : string) (authors : list string)
    (begin_date end_date : date) : M unit :=
  r <- get_rc ;;
  if negb (rc_no_expense r) then
    payee <- idx (head authors) ;;
    modify_rc (set_expense_attrs false payee (purpose_of r) "tbd") ;;;
    modify_rc (set_status "unsubmitted") ;;;
    edoc <- call_expense_constructor E key begin_date end_date ;;
    insert_one (rc_database r) EXPENSES_COLL edoc ;;;
    print (key +:+ " has been added in " +:+ EXPENSES_COLL)
  else ret tt.

(** Lines 146-167: dates, presenter, initials and key. *)
Definition derive (E : env) : M (date * date * string * string) :=
  r <- get_rc ;;
  begin_date <- parse_date E (rc_begin_date r) ;;
  end_date <- parse_date E (rc_end_date r) ;;
  person <- resolve_person ;;
  nk <- idx (name_key person) ;;
  ret (begin_date, end_date, person, key_of r begin_date nk).

(** Lines 169-217: guard, record, inserts.  The assignment
    [rc.no_expense = True] of line 192 is made before the record is
    built; the record does not read it. *)
Definition persist (E : env) (begin_date end_date : date) (person key : string) : M unit :=
  pdoc <- duplicate_guard E key ;;
  r <- get_rc ;;
  let authors := authors_of r person in
  (if rc_webinar r then modify_rc (set_no_expense true) else ret tt) ;;;
  let pdoc := build_pdoc r key authors begin_date end_date pdoc in
  insert_one (rc_database r) (rc_coll r) pdoc ;;;
  print (key +:+ " has been added in " +:+ TARGET_COLL) ;;;
  add_expense E key authors begin_date end_date.

(** [PresentationAdderHelper.db_updater]. *)
Definition db_updater (E : env) (fuel : nat) : M unit :=
  calendar_notifier E fuel ;;;
  d <- derive E ;;
  let '(begin_date, end_date, person, key) := d in
  persist E begin_date end_date person key.

(** A run from the state in which nothing has been called or written. *)
Definition init (r : rc) : state := mkstate r 0 [] [].

Definition run (E : env) (fuel : nat) (r : rc) : outcome unit * state :=
  db_updater E fuel (init r).

(** ** Observations on a run *)

Definition is_expense_constructor (c : call) : bool :=
  match c with ExpenseConstructor _ _ _ _ => true | _ => false end.

Definition is_calendar_call (c : call) : bool :=
  match c with
  | AddToGoogleCalendar _ _ | GoogleCalAuthFlow | Sleep _ => true
  | _ => false
  end.

Definition is_attempt (c : call) : bool :=
  match c with AddToGoogleCalendar _ _ => true | _ => false end.

(** The documents handed to [insert_one], with their collections, in order. *)
Definition inserted (l : list call) : list (string * doc) :=
  omap (fun c => match c with InsertOne _ coll d => Some (coll, d) | _ => None end) l.

(** The event [db_updater] builds from [rc] (lines 130-135). *)
Definition event_of (r : rc) : cal_event :=
  mkevent (rc_name r) (rc_place r) (rc_begin_date r) (rc_end_date r).

(** The run up to line 167: what the calendar notifier and the
    derivation of the key leave, when both return. *)
Definition prefix (E : env) (fuel : nat) : M (date * date * string * string) :=
  calendar_notifier E fuel ;;; derive E.

Definition key_reached (E : env) (fuel : nat) (r : rc) : option string :=
  match prefix E fuel (init r) with
  | (Return (_, _, _, key), _) => Some key
  | _ => None
  end.

(** The calendar notifier returns within the fuel. *)
Definition calendar_returns (E : env) (fuel : nat) (r : rc) : Prop :=
  (calendar_notifier E fuel (init r)).1 = Return tt.

(** The presenter lines 150-157 settle on, [None] when there is none. *)
Definition presenter_of (r : rc) : option string :=
  if PyStr.truthy (rc_person r) then rc_person r else rc_default_user_id r.

(** Every record of the snapshot exposes an [_id]. *)
Definition snapshot_ok (coll : list doc) : Prop :=
  Forall (fun d => is_Some (d !! "_id")) coll.

(** Some record of the snapshot has the id [key]. *)
Definition has_id (key : string) (coll : list doc) : Prop :=
  Exists (fun d => d !! "_id" = Some (VStr key)) coll.

(** The state once the presenter is settled: [rc.person] is assigned
    only when it was not truthy. *)
Definition settle (p : string) (s : state) : state :=
  if PyStr.truthy (rc_person (st_rc s)) then s
  else mkstate (set_person p (st_rc s)) (st_cal_calls s) (st_store s) (st_log s).

(** [rc] when the expense constructor is called (lines 210-214). *)
Definition expense_ctx (r : rc) (payee : string) : rc :=
  set_status "unsubmitted" (set_expense_attrs false payee (purpose_of r) "tbd" r).

(** The calls of lines 206-207 and of lines 209-217, for the [rc] found
    after the guard. *)
Definition presentation_calls (r : rc) (begin_date end_date : date)
    (person key : string) : list call :=
  [InsertOne (rc_database r) (rc_coll r)
     (build_pdoc r key (authors_of r person) begin_date end_date ∅);
   Print (key +:+ " has been added in " +:+ TARGET_COLL)].

Definition expense_calls (E : env) (r : rc) (begin_date end_date : date)
    (person key : string) : list call :=
  if rc_webinar r || rc_no_expense r then []
  else
    let ctx := expense_ctx r (default "" (head (authors_of r person))) in
    [ExpenseConstructor key begin_date end_date ctx;
     InsertOne (rc_database r) EXPENSES_COLL
       (expense_constructor E key begin_date end_date ctx);
     Print (key +:+ " has been added in " +:+ EXPENSES_COLL)].

(** [n] turns of the retry loop that fail: a sleep and a refused call each. *)
Definition failed_turns (event : cal_event) (n : nat) : list call :=
  concat (replicate n [Sleep 1; AddToGoogleCalendar event false]).

(** The first document handed to [insert_one] in a run: the
    presentation record, when the run gets that far. *)
Definition presentation_record (E : env) (fuel : nat) (r : rc) : option doc :=
  snd <$> head (inserted (st_log (run E fuel r).2)).

(** [rc.type in ['seminar', 'colloquium']]. *)
Definition is_seminar (r : rc) : bool :=
  bool_decide (rc_type r ∈ ["seminar"; "colloquium"]).

(** ** The key format in the words of the specification *)


(** A string without whitespace. *)
Fixpoint no_ws (s : string) : bool :=
  match s with
  | EmptyString => true
  | String c s' => negb (PyStr.isspace c) && no_ws s'
  end.



(** ** Concrete inputs *)

(** The namespace [subparser] produces from the four positional
    arguments alone, with the [coll] and [database] that
    [construct_global_ctx] sets and no [default_user_id]. *)
Definition args (name place begin_date end_date database : string) : rc :=
  {| rc_name := name; rc_place := place;
     rc_begin_date := begin_date; rc_end_date := end_date;
     rc_title := "tbd"; rc_abstract := "tbd";
     rc_person := None; rc_authors := None; rc_notes := None;
     rc_status := "accepted"; rc_type := "invited";
     rc_webinar := false; rc_no_expense := false;
     rc_database := database; rc_id := None; rc_no_cal := false;
     rc_default_user_id := None; rc_coll := TARGET_COLL;
     rc_business := None; rc_payee := None; rc_purpose := None;
     rc_where := None |}.

Definition with_person (p : string) (r : rc) : rc := set_person p r.

Definition with_type (t : string) (r : rc) : rc :=
  mkrc (rc_name r) (rc_place r) (rc_begin_date r) (rc_end_date r) (rc_title r)
    (rc_abstract r) (rc_person r) (rc_authors r) (rc_notes r)
    (rc_status r) t (rc_webinar r) (rc_no_expense r) (rc_database r)
    (rc_id r) (rc_no_cal r) (rc_default_user_id r) (rc_coll r) (rc_business r)
    (rc_payee r) (rc_purpose r) (rc_where r).

Definition with_id (i : string) (r : rc) : rc :=
  mkrc (rc_name r) (rc_place r) (rc_begin_date r) (rc_end_date r) (rc_title r)
    (rc_abstract r) (rc_person r) (rc_authors r) (rc_notes r)
    (rc_status r) (rc_type r) (rc_webinar r) (rc_no_expense r) (rc_database r)
    (Some i) (rc_no_cal r) (rc_default_user_id r) (rc_coll r) (rc_business r)
    (rc_payee r) (rc_purpose r) (rc_where r).

Definition with_no_cal (b : bool) (r : rc) : rc :=
  mkrc (rc_name r) (rc_place r) (rc_begin_date r) (rc_end_date r) (rc_title r)
    (rc_abstract r) (rc_person r) (rc_authors r) (rc_notes r)
    (rc_status r) (rc_type r) (rc_webinar r) (rc_no_expense r) (rc_database r)
    (rc_id r) b (rc_default_user_id r) (rc_coll r) (rc_business r)
    (rc_payee r) (rc_purpose r) (rc_where r).

Definition with_webinar (b : bool) (r : rc) : rc :=
  mkrc (rc_name r) (rc_place r) (rc_begin_date r) (rc_end_date r) (rc_title r)
    (rc_abstract r) (rc_person r) (rc_authors r) (rc_notes r)
    (rc_status r) (rc_type r) b (rc_no_expense r) (rc_database r)
    (rc_id r) (rc_no_cal r) (rc_default_user_id r) (rc_coll r) (rc_business r)
    (rc_payee r) (rc_purpose r) (rc_where r).

(** Dates used in the examples. *)
Definition d_2023_05_10 : date := mkdate 2023%Z 5%Z 10%Z eq_refl.
Definition d_2023_05_12 : date := mkdate 2023%Z 5%Z 12%Z eq_refl.
Definition d_0999_05_10 : date := mkdate 999%Z 5%Z 10%Z eq_refl.

(** A date parser that knows the ISO strings of the examples. *)
Definition iso_parser (s : string) : option date :=
  if String.eqb s "2023-05-10" then Some d_2023_05_10
  else if String.eqb s "2023-05-12" then Some d_2023_05_12
  else if String.eqb s "0999-05-10" then Some d_0999_05_10
  else None.

(** An expense constructor that records the key, the payee and the
    status it is given. *)
Definition simple_expense (key : string) (b e : date) (ctx : rc) : doc :=
  update ∅ [("_id", VStr key);
            ("payee", VStr (default "" (rc_payee ctx)));
            ("status", VStr (rc_status ctx))].

(** Calendars: one that always succeeds, one that never does, and one
    that answers from a list and succeeds afterwards. *)
Definition cal_ok : nat -> cal_event -> bool := fun _ _ => true.
Definition cal_down : nat -> cal_event -> bool := fun _ _ => false.
Definition cal_script (l : list bool) : nat -> cal_event -> bool :=
  fun n _ => default true (l !! n).

Definition env_of (cal : nat -> cal_event -> bool) (coll : list doc) : env :=
  mkenv cal iso_parser simple_expense coll.

Definition jane : rc :=
  with_type "seminar"
    (with_person "Jane Doe" (args "Physics" "MIT Boston" "2023-05-10" "2023-05-12" "db")).


(** A stored record with nothing but its id. *)
Definition stored (key : string) : doc := update ∅ [("_id", VStr key)].

(** ** Further observations *)

(** The calls of [n] turns of the retry loop, the first of them being
    the calendar's [c]-th call: a sleep and a call each. *)
Definition turns (E : env) (event : cal_event) (c n : nat) : list call :=
  concat (map (fun i => [Sleep 1;
                         AddToGoogleCalendar event
                           (add_to_google_calendar E (c + i) event)])
            (seq 0 n)).

(** Turn [k] (from 0) of a loop entered with the counter at [j] and the
    calendar at its [c]-th call leaves the condition of line 140 false:
    the call is accepted and the counter, then [j + k + 1], is not 60. *)
Definition ends_loop (E : env) (event : cal_event) (c j k : nat) : bool :=
  add_to_google_calendar E (c + k) event && negb (j + k + 1 =? 60)%nat.

(** The calendar calls of a run, in order. *)
Definition calendar_calls (l : list call) : list call :=
  filter (fun c => is_calendar_call c = true) l.

(** The lines handed to [print], in order. *)
Definition printed (l : list call) : list string :=
  omap (fun c => match c with Print line => Some line | _ => None end) l.

(** [rc] when a run that got past the guard ends. *)
Definition final_rc (r : rc) (payee : string) : rc :=
  if rc_webinar r then set_no_expense true r
  else if rc_no_expense r then r
  else expense_ctx r payee.

(** The arguments of [subparser] and the configuration are the same in
    two run control objects: all but [person], [no_expense], [status]
    and the expense attributes, which [db_updater] assigns. *)
Definition same_args (r r' : rc) : Prop :=
  rc_name r' = rc_name r /\ rc_place r' = rc_place r
  /\ rc_begin_date r' = rc_begin_date r /\ rc_end_date r' = rc_end_date r
  /\ rc_title r' = rc_title r /\ rc_abstract r' = rc_abstract r
  /\ rc_authors r' = rc_authors r /\ rc_notes r' = rc_notes r
  /\ rc_type r' = rc_type r /\ rc_webinar r' = rc_webinar r
  /\ rc_database r' = rc_database r /\ rc_id r' = rc_id r
  /\ rc_no_cal r' = rc_no_cal r
  /\ rc_default_user_id r' = rc_default_user_id r
  /\ rc_coll r' = rc_coll r.

(** [rc] once the presenter is settled. *)
Definition settled_rc (r : rc) (p : string) : rc :=
  if PyStr.truthy (rc_person r) then r else set_person p r.

(** The keys every presentation record has, and the keys of a record
    built from [r]. *)
Definition CORE_KEYS : gset string :=
  {[ "_id"; "abstract"; "authors"; "begin_date"; "end_date";
     "project"; "status"; "title"; "type" ]}.

Definition keys_of (r : rc) : gset string :=
  CORE_KEYS
  ∪ (if truthy_list (rc_notes r) then {[ "notes" ]} else ∅)
  ∪ (if rc_webinar r then {[ "webinar" ]} else ∅)
  ∪ (if is_seminar r then {[ "institution"; "department" ]}
     else {[ "location"; "meeting_name" ]}).







(** ** The target database (lines 115-117 of [construct_global_ctx]) *)

Definition set_coll (v : string) (r : rc) : rc :=
  mkrc (rc_name r) (rc_place r) (rc_begin_date r) (rc_end_date r) (rc_title r)
    (rc_abstract r) (rc_person r) (rc_authors r) (rc_notes r)
    (rc_status r) (rc_type r) (rc_webinar r) (rc_no_expense r) (rc_database r)
    (rc_id r) (rc_no_cal r) (rc_default_user_id r) v (rc_business r)
    (rc_payee r) (rc_purpose r) (rc_where r).

Definition set_database (v : string) (r : rc) : rc :=
  mkrc (rc_name r) (rc_place r) (rc_begin_date r) (rc_end_date r) (rc_title r)
    (rc_abstract r) (rc_person r) (rc_authors r) (rc_notes r)
    (rc_status r) (rc_type r) (rc_webinar r) (rc_no_expense r) v
    (rc_id r) (rc_no_cal r) (rc_default_user_id r) (rc_coll r) (rc_business r)
    (rc_payee r) (rc_purpose r) (rc_where r).

(** [rc.coll = f"{TARGET_COLL}"] and
    [if not rc.database: rc.database = rc.databases[0]["name"]], for the
    list [rc.databases] of the configuration; a database that is not
    given is the empty string here, which [not] treats as [None].  The
    calls before line 115 are taken to return ([rc.pi_id] is not read
    by [db_updater]), and the snapshot lines 118-120 store is
    [gtx_coll]. *)
Definition target_database (databases : list (gmap string string)) : M unit :=
  modify_rc (set_coll TARGET_COLL) ;;;
  r <- get_rc ;;
  if negb (PyStr.truthy (Some (rc_database r))) then
    db <- idx (head databases) ;;
    match db !! "name" with
    | Some name => modify_rc (set_database name)
    | None => raise (KeyError "name")
    end
  else ret tt.

(** The helper from the command line: the target database, then
    [db_updater]. *)
Definition helper (E : env) (databases : list (gmap string string)) (fuel : nat)
    (r : rc) : outcome unit * state :=
  (target_database databases ;;; db_updater E fuel) (init r).

(** ** Strings *)

Section Strings.

Import PyStr.

Lemma append_cons (c : ascii) (s x : string) :
  String c s +:+ x = String c (s +:+ x).
Proof. reflexivity. Qed.









Lemma append_assoc (a b c : string) : (a +:+ b) +:+ c = a +:+ (b +:+ c).
Proof. induction a as [|x a IH]; [reflexivity|]. by rewrite !append_cons, IH. Qed.







(** Case folding neither makes nor removes whitespace. *)
Lemma isspace_casefold_char (c : ascii) : isspace (casefold_char c) = isspace c.
Proof. by destruct c as [[] [] [] [] [] [] [] []]. Qed.





Lemma split_empty_strip (s : string) : strip s = "" -> split (strip s) = [].
Proof. by intros ->. Qed.



End Strings.

(** ** The monad and the collaborators *)

(** Unfolding of the monad and of the collaborators. *)
Ltac unfold_m :=
  unfold bind, ret, raise, get_rc, modify_rc, log_call, insert_one, print,
    call_expense_constructor, idx, add_expense;
  simpl.

Section Monad.

Lemma bind_return {A B} (m : M A) (k : A -> M B) (s s' : state) (a : A) :
  m s = (Return a, s') -> bind m k s = k a s'.
Proof. intros H. unfold bind. by rewrite H. Qed.

Lemma bind_raise {A B} (m : M A) (k : A -> M B) (s s' : state) (e : exn) :
  m s = (Raise e, s') -> bind m k s = (Raise e, s').
Proof. intros H. unfold bind. by rewrite H. Qed.

Lemma bind_out_of_fuel {A B} (m : M A) (k : A -> M B) (s s' : state) :
  m s = (OutOfFuel, s') -> bind m k s = (OutOfFuel, s').
Proof. intros H. unfold bind. by rewrite H. Qed.

End Monad.

(** ** The calendar notifier *)

Section Calendar.

Variable E : env.
Variable event : cal_event.

Lemma failed_turns_S (n : nat) :
  failed_turns event (S n) = [Sleep 1; AddToGoogleCalendar event false] ++ failed_turns event n.
Proof. reflexivity. Qed.

Lemma failed_turns_snoc (n : nat) :
  failed_turns event (S n) = failed_turns event n ++ [Sleep 1; AddToGoogleCalendar event false].
Proof.
  induction n as [|n IH]; [reflexivity|].
  rewrite failed_turns_S, IH at 1.
  rewrite (failed_turns_S n). by rewrite <- !app_assoc.
Qed.

(** The loop touches neither [rc] nor the store, logs calendar calls
    only and raises nothing. *)
Lemma retry_loop_frame (fuel : nat) :
  forall (w : bool) (j : nat) (s : state) o s',
    retry_loop E event fuel w j s = (o, s') ->
    (o = Return tt \/ o = OutOfFuel)
    /\ st_rc s' = st_rc s /\ st_store s' = st_store s
    /\ exists l, st_log s' = st_log s ++ l /\ forallb is_calendar_call l = true.
Proof.
  induction fuel as [|fuel IH]; intros w j s o s' H; simpl in H.
  - destruct (negb w || (j =? 60)%nat); inversion H; subst;
      (split; [auto|]); repeat split; exists []; by rewrite app_nil_r.
  - destruct (negb w || (j =? 60)%nat).
    + unfold bind, time_sleep, log_call, add_cal in H; simpl in H.
      apply IH in H as (Ho & Hrc & Hst & l & Hl & Hcal); simpl in *.
      repeat split; try done.
      exists ([Sleep 1; AddToGoogleCalendar event
                 (add_to_google_calendar E (st_cal_calls s) event)] ++ l).
      split; [by rewrite Hl, <- !app_assoc|done].
    + inversion H; subst. split; [auto|]. repeat split.
      exists []; by rewrite app_nil_r.
Qed.

(** With a calendar that refuses every call the loop never ends: any
    fuel is used up, one refused call per unit. *)
Lemma retry_loop_down (fuel : nat) :
  (forall n e, add_to_google_calendar E n e = false) ->
  forall (j : nat) (s : state),
    retry_loop E event fuel false j s =
    (OutOfFuel,
     mkstate (st_rc s) (st_cal_calls s + fuel) (st_store s)
       (st_log s ++ failed_turns event fuel)).
Proof.
  intros Hdown. induction fuel as [|fuel IH]; intros j s; simpl.
  - unfold out_of_fuel. rewrite Nat.add_0_r, app_nil_r. by destruct s.
  - unfold bind, time_sleep, log_call, add_cal; simpl.
    rewrite Hdown, IH; simpl.
    rewrite failed_turns_S, <- !app_assoc. simpl.
    do 2 f_equal. lia.
Qed.

(** The loop ends at the first call the calendar accepts, unless the
    counter is then 60. *)
Lemma retry_loop_first_success (k : nat) :
  forall (fuel j : nat) (s : state),
    (forall i, i < k -> add_to_google_calendar E (st_cal_calls s + i) event = false) ->
    add_to_google_calendar E (st_cal_calls s + k) event = true ->
    j + k + 1 ≠ 60 ->
    k < fuel ->
    retry_loop E event fuel false j s =
    (Return tt,
     mkstate (st_rc s) (st_cal_calls s + k + 1) (st_store s)
       (st_log s ++ failed_turns event k ++ [Sleep 1; AddToGoogleCalendar event true])).
Proof.
  induction k as [|k IH]; intros fuel j s Hfail Hok Hj Hfuel.
  - destruct fuel as [|fuel]; [lia|]. simpl.
    unfold bind, time_sleep, log_call, add_cal; simpl.
    rewrite Nat.add_0_r in Hok. rewrite Hok.
    destruct fuel; simpl;
      (destruct (j + 1 =? 60)%nat eqn:Hj'; [apply Nat.eqb_eq in Hj'; lia|]);
      unfold ret; rewrite <- app_assoc; simpl; do 2 f_equal; lia.
  - destruct fuel as [|fuel]; [lia|].
    pose proof (Hfail 0 ltac:(lia)) as H0. rewrite Nat.add_0_r in H0.
    simpl. unfold bind, time_sleep, log_call, add_cal; simpl.
    rewrite !H0.
    rewrite (IH fuel (j + 1)); simpl.
    + fold (failed_turns event k). rewrite <- !app_assoc. simpl.
      do 2 f_equal. lia.
    + intros i Hi. simpl.
      replace (S (st_cal_calls s + i)) with (st_cal_calls s + S i) by lia.
      apply Hfail. lia.
    + simpl. replace (S (st_cal_calls s + k)) with (st_cal_calls s + S k) by lia.
      done.
    + lia.
    + lia.
Qed.

End Calendar.

(** ** The steps of a run *)

Section Steps.

Variable E : env.

Lemma calendar_notifier_frame (fuel : nat) (s : state) o s' :
  calendar_notifier E fuel s = (o, s') ->
  (o = Return tt \/ o = OutOfFuel)
  /\ st_rc s' = st_rc s /\ st_store s' = st_store s
  /\ exists l, st_log s' = st_log s ++ l
       /\ forallb is_calendar_call l = true
       /\ (rc_no_cal (st_rc s) = true -> l = [])
       /\ (rc_no_cal (st_rc s) = false ->
           exists l', l = AddToGoogleCalendar (event_of (st_rc s))
                            (add_to_google_calendar E (st_cal_calls s) (event_of (st_rc s)))
                          :: l').
Proof.
  unfold calendar_notifier, bind, get_rc. fold (event_of (st_rc s)).
  destruct (rc_no_cal (st_rc s)) eqn:Hcal; simpl.
  - intros [= <- <-]. split; [auto|]. repeat split.
    exists []. rewrite app_nil_r. repeat split; done.
  - unfold add_cal; simpl.
    destruct (add_to_google_calendar E (st_cal_calls s) (event_of (st_rc s))) eqn:Hok; simpl.
    + intros [= <- <-]; simpl. split; [auto|]. repeat split.
      eexists. repeat split; [done|]. intros _. by eexists.
    + unfold google_cal_auth_flow, log_call; simpl. intros H.
      apply retry_loop_frame in H as (Ho & Hrc & Hst & l & Hl & Hall); simpl in *.
      repeat split; try done.
      exists ([AddToGoogleCalendar (event_of (st_rc s)) false; GoogleCalAuthFlow] ++ l).
      rewrite Hl, <- !app_assoc. repeat split; try done.
      intros _. by eexists.
Qed.

(** The calendar notifier returns at once when it is suppressed or
    when its first call is accepted. *)
Lemma calendar_notifier_no_cal (fuel : nat) (s : state) :
  rc_no_cal (st_rc s) = true -> calendar_notifier E fuel s = (Return tt, s).
Proof. intros H. unfold calendar_notifier, bind, get_rc. by rewrite H. Qed.

Lemma calendar_notifier_first_ok (fuel : nat) (s : state) :
  rc_no_cal (st_rc s) = false ->
  add_to_google_calendar E (st_cal_calls s) (event_of (st_rc s)) = true ->
  calendar_notifier E fuel s =
  (Return tt,
   mkstate (st_rc s) (S (st_cal_calls s)) (st_store s)
     (st_log s ++ [AddToGoogleCalendar (event_of (st_rc s)) true])).
Proof.
  intros Hcal Hok. unfold calendar_notifier, bind, get_rc.
  fold (event_of (st_rc s)). rewrite Hcal; simpl.
  unfold add_cal. by rewrite Hok.
Qed.

Lemma presenter_of_truthy (r : rc) :
  PyStr.truthy (rc_person r) = true -> presenter_of r = Some (default "" (rc_person r)).
Proof.
  intros H. unfold presenter_of. rewrite H.
  by destruct (rc_person r).
Qed.

Lemma resolve_person_some (s : state) (p : string) :
  presenter_of (st_rc s) = Some p -> resolve_person s = (Return p, settle p s).
Proof.
  unfold presenter_of, resolve_person, settle, bind, get_rc.
  destruct (PyStr.truthy (rc_person (st_rc s))) eqn:Ht; simpl.
  - destruct (rc_person (st_rc s)); [|done]. by intros [= ->].
  - by intros ->.
Qed.

Lemma resolve_person_none (s : state) :
  presenter_of (st_rc s) = None ->
  resolve_person s = (Raise (RuntimeError NO_PERSON_MSG), s).
Proof.
  unfold presenter_of, resolve_person, bind, get_rc.
  destruct (PyStr.truthy (rc_person (st_rc s))) eqn:Ht; simpl.
  - destruct (rc_person (st_rc s)); done.
  - by intros ->.
Qed.

(** The four ways the derivation of lines 146-167 ends. *)
Lemma derive_bad_begin (s : state) :
  date_parser_parse E (rc_begin_date (st_rc s)) = None ->
  derive E s = (Raise ParserError, s).
Proof. intros H. unfold derive, bind, get_rc, parse_date. by rewrite H. Qed.

Lemma derive_bad_end (s : state) (bd : date) :
  date_parser_parse E (rc_begin_date (st_rc s)) = Some bd ->
  date_parser_parse E (rc_end_date (st_rc s)) = None ->
  derive E s = (Raise ParserError, s).
Proof. intros H1 H2. unfold derive, bind, get_rc, parse_date. by rewrite H1, H2. Qed.

Lemma derive_no_person (s : state) (bd ed : date) :
  date_parser_parse E (rc_begin_date (st_rc s)) = Some bd ->
  date_parser_parse E (rc_end_date (st_rc s)) = Some ed ->
  presenter_of (st_rc s) = None ->
  derive E s = (Raise (RuntimeError NO_PERSON_MSG), s).
Proof.
  intros H1 H2 Hp. unfold derive, bind, get_rc at 1, parse_date.
  rewrite H1, H2; simpl. by rewrite (resolve_person_none _ Hp).
Qed.

Lemma derive_no_token (s : state) (bd ed : date) (p : string) :
  date_parser_parse E (rc_begin_date (st_rc s)) = Some bd ->
  date_parser_parse E (rc_end_date (st_rc s)) = Some ed ->
  presenter_of (st_rc s) = Some p ->
  name_key p = None ->
  derive E s = (Raise IndexError, settle p s).
Proof.
  intros H1 H2 Hp Hk. unfold derive, bind, get_rc at 1, parse_date.
  rewrite H1, H2; simpl. rewrite (resolve_person_some _ _ Hp), Hk. done.
Qed.

Lemma derive_ok (s : state) (bd ed : date) (p nk : string) :
  date_parser_parse E (rc_begin_date (st_rc s)) = Some bd ->
  date_parser_parse E (rc_end_date (st_rc s)) = Some ed ->
  presenter_of (st_rc s) = Some p ->
  name_key p = Some nk ->
  derive E s = (Return (bd, ed, p, key_of (st_rc s) bd nk), settle p s).
Proof.
  intros H1 H2 Hp Hk. unfold derive, bind, get_rc at 1, parse_date.
  rewrite H1, H2; simpl. rewrite (resolve_person_some _ _ Hp), Hk. done.
Qed.

(** What a derivation that returns has gone through. *)
Lemma derive_return (s s' : state) (bd ed : date) (p key : string) :
  derive E s = (Return (bd, ed, p, key), s') ->
  date_parser_parse E (rc_begin_date (st_rc s)) = Some bd
  /\ date_parser_parse E (rc_end_date (st_rc s)) = Some ed
  /\ presenter_of (st_rc s) = Some p
  /\ (exists nk, name_key p = Some nk /\ key = key_of (st_rc s) bd nk)
  /\ s' = settle p s.
Proof.
  intros H.
  destruct (date_parser_parse E (rc_begin_date (st_rc s))) as [bd'|] eqn:H1;
    [|by rewrite (derive_bad_begin _ H1) in H].
  destruct (date_parser_parse E (rc_end_date (st_rc s))) as [ed'|] eqn:H2;
    [|by rewrite (derive_bad_end _ _ H1 H2) in H].
  destruct (presenter_of (st_rc s)) as [p'|] eqn:Hp;
    [|by rewrite (derive_no_person _ _ _ H1 H2 Hp) in H].
  destruct (name_key p') as [nk|] eqn:Hk;
    [|by rewrite (derive_no_token _ _ _ _ H1 H2 Hp Hk) in H].
  rewrite (derive_ok _ _ _ _ _ H1 H2 Hp Hk) in H.
  injection H as <- <- <- <- <-. repeat split; try done. by exists nk.
Qed.

(** The derivation calls no collaborator, writes nothing and ends. *)
Lemma derive_frame (s : state) o s' :
  derive E s = (o, s') ->
  o ≠ OutOfFuel
  /\ st_cal_calls s' = st_cal_calls s /\ st_store s' = st_store s
  /\ st_log s' = st_log s.
Proof.
  intros H.
  destruct (date_parser_parse E (rc_begin_date (st_rc s))) as [bd'|] eqn:H1;
    [|rewrite (derive_bad_begin _ H1) in H; by injection H as <- <-].
  destruct (date_parser_parse E (rc_end_date (st_rc s))) as [ed'|] eqn:H2;
    [|rewrite (derive_bad_end _ _ H1 H2) in H; by injection H as <- <-].
  destruct (presenter_of (st_rc s)) as [p'|] eqn:Hp;
    [|rewrite (derive_no_person _ _ _ H1 H2 Hp) in H; by injection H as <- <-].
  destruct (name_key p') as [nk|] eqn:Hk.
  - rewrite (derive_ok _ _ _ _ _ H1 H2 Hp Hk) in H. injection H as <- <-.
    unfold settle. by destruct (PyStr.truthy _).
  - rewrite (derive_no_token _ _ _ _ H1 H2 Hp Hk) in H. injection H as <- <-.
    unfold settle. by destruct (PyStr.truthy _).
Qed.

End Steps.

(** ** The duplicate guard and the inserts *)

Section Guard.

Variable E : env.

(** The filter reads the snapshot and nothing else. *)
Lemma filter_id_frame (key : string) (coll : list doc) (s : state) :
  exists o, filter_id key coll s = (o, s) /\ o ≠ OutOfFuel.
Proof.
  induction coll as [|d coll (o & IH & Ho)]; simpl.
  - by exists (Return []).
  - unfold bind, getitem. destruct (d !! "_id") as [v|]; simpl.
    + rewrite IH. destruct o as [l| |]; simpl; [|by eexists|done].
      by eexists.
    + by eexists.
Qed.

(** On a snapshot whose records all have an [_id], the filter returns,
    and returns the empty list exactly when no record has the key. *)
Lemma filter_id_ok (key : string) (coll : list doc) (s : state) :
  snapshot_ok coll ->
  exists l, filter_id key coll s = (Return l, s) /\ (l = [] <-> ~ has_id key coll).
Proof.
  unfold snapshot_ok, has_id.
  induction 1 as [|d coll [v Hd] _ (l & IH & Hl)]; simpl.
  - exists []. split; [done|]. split; [|done]. intros _ H. inversion H.
  - unfold bind, getitem. rewrite Hd; simpl. rewrite IH; simpl.
    destruct (value_eq_str v key) eqn:Hv; eexists; (split; [reflexivity|]).
    + split; [done|]. intros H. exfalso. apply H. left.
      destruct v; simpl in Hv; try done. apply String.eqb_eq in Hv. by subst.
    + rewrite Hl. split.
      * intros Hn H. inversion H as [? ? Hh|? ? Ht]; subst; [|done].
        rewrite Hd in Hh. injection Hh as ->. simpl in Hv.
        by rewrite String.eqb_refl in Hv.
      * intros Hn H. apply Hn. by right.
Qed.

Lemma duplicate_guard_frame (key : string) (s : state) o s' :
  duplicate_guard E key s = (o, s') ->
  s' = s /\ (o = Return ∅ \/ exists e, o = Raise e).
Proof.
  unfold duplicate_guard, bind.
  destruct (filter_id_frame key (gtx_coll E) s) as (o' & -> & Ho).
  destruct o' as [l|e|]; [|intros [= <- <-]; eauto|done].
  destruct (0 <? length l)%nat; intros [= <- <-]; eauto.
Qed.

Lemma duplicate_guard_exists (key : string) (s : state) :
  snapshot_ok (gtx_coll E) -> has_id key (gtx_coll E) ->
  duplicate_guard E key s = (Raise (RuntimeError EXISTS_MSG), s).
Proof.
  intros Hok Hdup. unfold duplicate_guard, bind.
  destruct (filter_id_ok key (gtx_coll E) s Hok) as (l & -> & Hl).
  destruct l as [|d l]; [|done].
  exfalso. by apply Hl.
Qed.

Lemma duplicate_guard_fresh (key : string) (s : state) :
  snapshot_ok (gtx_coll E) -> ~ has_id key (gtx_coll E) ->
  duplicate_guard E key s = (Return ∅, s).
Proof.
  intros Hok Hdup. unfold duplicate_guard, bind.
  destruct (filter_id_ok key (gtx_coll E) s Hok) as (l & -> & Hl).
  apply Hl in Hdup as ->. done.
Qed.

Lemma authors_of_head (r : rc) (p : string) :
  exists a, head (authors_of r p) = Some a.
Proof.
  unfold authors_of. destruct (rc_authors r) as [[|a l]|]; simpl; eauto.
Qed.

Lemma persist_abort (bd ed : date) (p key : string) (s : state) (e : exn) :
  duplicate_guard E key s = (Raise e, s) ->
  persist E bd ed p key s = (Raise e, s).
Proof. intros H. unfold persist. by rewrite (bind_raise _ _ _ _ _ H). Qed.

(** Past the guard: the presentation is inserted and announced, then
    the expense, unless it is suppressed. *)
Lemma persist_pass (bd ed : date) (p key : string) (s : state) :
  duplicate_guard E key s = (Return ∅, s) ->
  exists s',
    persist E bd ed p key s = (Return tt, s')
    /\ st_log s' = st_log s ++ presentation_calls (st_rc s) bd ed p key
                   ++ expense_calls E (st_rc s) bd ed p key
    /\ st_store s' = st_store s
         ++ ((fun c => (rc_database (st_rc s), c.1, c.2)) <$>
               inserted (presentation_calls (st_rc s) bd ed p key
                         ++ expense_calls E (st_rc s) bd ed p key))
    /\ rc_no_expense (st_rc s') = rc_webinar (st_rc s) || rc_no_expense (st_rc s)
    /\ st_cal_calls s' = st_cal_calls s.
Proof.
  intros H. unfold persist. rewrite (bind_return _ _ _ _ _ H).
  unfold presentation_calls, expense_calls.
  destruct (authors_of_head (st_rc s) p) as [a Ha].
  destruct (rc_webinar (st_rc s)) eqn:Hw;
    [|destruct (rc_no_expense (st_rc s)) eqn:Hn];
    repeat (unfold_m; rewrite ?Hw, ?Hn, ?Ha; simpl);
    (eexists; split; [reflexivity|]; simpl);
    rewrite ?Hw, ?Hn, <- ?app_assoc; by repeat split.
Qed.

End Guard.

(** ** Whole runs *)

Section Runs.

Variable E : env.

Lemma bind_assoc {A B C} (m : M A) (k : A -> M B) (h : B -> M C) (s : state) :
  bind (bind m k) h s = bind m (fun a => bind (k a) h) s.
Proof. unfold bind. destruct (m s) as [[a|e|] s']; [|done..]. done. Qed.

(** [db_updater] is the prefix followed by the guard and the inserts. *)
Lemma db_updater_prefix (fuel : nat) (s : state) :
  db_updater E fuel s =
  bind (prefix E fuel)
    (fun d => let '(bd, ed, p, key) := d in persist E bd ed p key) s.
Proof. unfold db_updater, prefix. by rewrite bind_assoc. Qed.

(** Settling the presenter changes [rc.person] and nothing the later
    steps read. *)
Lemma settle_fields (p : string) (s : state) :
  let r := st_rc s in
  let r' := st_rc (settle p s) in
  rc_name r' = rc_name r /\ rc_place r' = rc_place r
  /\ rc_type r' = rc_type r /\ rc_webinar r' = rc_webinar r
  /\ rc_no_expense r' = rc_no_expense r /\ rc_authors r' = rc_authors r
  /\ rc_coll r' = rc_coll r /\ rc_database r' = rc_database r.
Proof. unfold settle. by destruct (PyStr.truthy _). Qed.

Lemma settle_frame (p : string) (s : state) :
  st_log (settle p s) = st_log s /\ st_store (settle p s) = st_store s
  /\ st_cal_calls (settle p s) = st_cal_calls s.
Proof. unfold settle. by destruct (PyStr.truthy _). Qed.

Lemma build_pdoc_settle (p key : string) (a : list string) (bd ed : date)
    (d : doc) (s : state) :
  build_pdoc (st_rc (settle p s)) key a bd ed d = build_pdoc (st_rc s) key a bd ed d.
Proof. unfold settle. by destruct (PyStr.truthy _). Qed.

Lemma authors_of_settle (p q : string) (s : state) :
  authors_of (st_rc (settle p s)) q = authors_of (st_rc s) q.
Proof. unfold settle. by destruct (PyStr.truthy _). Qed.

(** A prefix that returns: the calendar notifier returned, then the
    derivation did. *)
Lemma prefix_return (fuel : nat) (r : rc) (bd ed : date) (p key : string) (s1 : state) :
  prefix E fuel (init r) = (Return (bd, ed, p, key), s1) ->
  exists s0 l0,
    calendar_notifier E fuel (init r) = (Return tt, s0)
    /\ derive E s0 = (Return (bd, ed, p, key), s1)
    /\ st_rc s0 = r /\ st_store s0 = [] /\ st_log s0 = l0
    /\ forallb is_calendar_call l0 = true
    /\ s1 = settle p s0.
Proof.
  unfold prefix, bind.
  destruct (calendar_notifier E fuel (init r)) as [o s0] eqn:Hc.
  destruct (calendar_notifier_frame E _ _ _ _ Hc)
    as (Ho & Hrc & Hst & l & Hl & Hall & _).
  destruct o as [[]|e|]; [|done..].
  intros Hd. exists s0, l. repeat split; try done.
  by apply derive_return in Hd as (_ & _ & _ & _ & ->).
Qed.

(** A prefix that does not return leaves calendar calls only. *)
Lemma prefix_frame (fuel : nat) (r : rc) o s1 :
  prefix E fuel (init r) = (o, s1) ->
  forallb is_calendar_call (st_log s1) = true /\ st_store s1 = []
  /\ (rc_no_cal r = false ->
      exists l, st_log s1 =
        AddToGoogleCalendar (event_of r) (add_to_google_calendar E 0 (event_of r)) :: l).
Proof.
  unfold prefix, bind.
  destruct (calendar_notifier E fuel (init r)) as [o0 s0] eqn:Hc.
  destruct (calendar_notifier_frame E _ _ _ _ Hc)
    as (Ho & Hrc & Hst & l & Hl & Hall & _ & Hfirst); simpl in *.
  assert (forall s, st_log s = st_log s0 -> st_store s = st_store s0 ->
            forallb is_calendar_call (st_log s) = true /\ st_store s = []
            /\ (rc_no_cal r = false ->
                exists l', st_log s =
                  AddToGoogleCalendar (event_of r)
                    (add_to_google_calendar E 0 (event_of r)) :: l')) as Hs.
  { intros s -> ->. rewrite Hl, Hst. split; [done|]. split; [done|].
    intros Hn. destruct (Hfirst Hn) as [l' ->]. by exists l'. }
  destruct o0 as [[]|e|]; [|intros [= <- <-]; by apply Hs..].
  intros Hd. apply derive_frame in Hd as (_ & _ & Hst1 & Hl1). by apply Hs.
Qed.

(** The two ways a run ends: before any insert, with nothing but
    calendar calls made, or with the presentation inserted. *)
Lemma run_cases (fuel : nat) (r : rc) :
  (exists o s,
      run E fuel r = (o, s) /\ o ≠ Return tt
      /\ forallb is_calendar_call (st_log s) = true /\ st_store s = [])
  \/ (exists bd ed p key s1 s,
        prefix E fuel (init r) = (Return (bd, ed, p, key), s1)
        /\ duplicate_guard E key s1 = (Return ∅, s1)
        /\ run E fuel r = (Return tt, s)
        /\ st_log s = st_log s1 ++ presentation_calls (st_rc s1) bd ed p key
                      ++ expense_calls E (st_rc s1) bd ed p key
        /\ st_store s =
             (fun c => (rc_database r, c.1, c.2)) <$>
               inserted (presentation_calls (st_rc s1) bd ed p key
                         ++ expense_calls E (st_rc s1) bd ed p key)
        /\ rc_no_expense (st_rc s) = rc_webinar r || rc_no_expense r).
Proof.
  unfold run. rewrite db_updater_prefix.
  destruct (prefix E fuel (init r)) as [o s1] eqn:Hp.
  destruct (prefix_frame _ _ _ _ Hp) as (Hall & Hst & _).
  destruct o as [[[[bd ed] p] key]|e|].
  - rewrite (bind_return _ _ _ _ _ Hp).
    destruct (duplicate_guard E key s1) as [og sg] eqn:Hg.
    destruct (duplicate_guard_frame E _ _ _ _ Hg) as [-> [->|[e ->]]].
    + right. destruct (persist_pass E bd ed p key s1 Hg)
        as (s & Hrun & Hlog & Hstore & Hne & _).
      apply prefix_return in Hp as Hp'.
      destruct Hp' as (s0 & l0 & _ & _ & Hr0 & _ & _ & _ & ->).
      destruct (settle_fields p s0) as (_ & _ & _ & Hw & Hn & _ & _ & Hdb).
      exists bd, ed, p, key, (settle p s0), s.
      rewrite Hst in Hstore. rewrite Hw, Hn, Hr0 in Hne. rewrite Hdb, Hr0 in Hstore.
      done.
    + left. exists (Raise e), s1. by rewrite (persist_abort E _ _ _ _ _ _ Hg).
  - left. exists (Raise e), s1. by rewrite (bind_raise _ _ _ _ _ Hp).
  - left. exists OutOfFuel, s1. by rewrite (bind_out_of_fuel _ _ _ _ Hp).
Qed.

End Runs.

(** ** The record builder *)

Section Builder.

Variables (r : rc) (key : string) (authors : list string) (bd ed : date).

Local Ltac lookup_built :=
  unfold build_pdoc, update; simpl;
  repeat match goal with
         | |- context [if ?b then _ else _] => destruct b; simpl
         end;
  repeat (rewrite lookup_insert_ne by done);
  rewrite ?lookup_insert_eq, ?lookup_empty; try done.

Lemma build_pdoc_id :
  build_pdoc r key authors bd ed ∅ !! "_id" = Some (VStr key).
Proof. lookup_built. Qed.

Lemma build_pdoc_authors :
  build_pdoc r key authors bd ed ∅ !! "authors" = Some (VList authors).
Proof. lookup_built. Qed.

Lemma build_pdoc_webinar :
  build_pdoc r key authors bd ed ∅ !! "webinar"
  = if rc_webinar r then Some (VBool true) else None.
Proof. destruct (rc_webinar r) eqn:Hw; lookup_built. Qed.

(** Seminars and colloquia carry the institution and the department,
    the other types the location and the meeting name. *)
Lemma build_pdoc_seminar :
  is_seminar r = true ->
  let d := build_pdoc r key authors bd ed ∅ in
  d !! "institution" = Some (VStr (rc_place r))
  /\ d !! "department" = Some (VStr (rc_name r))
  /\ d !! "location" = None /\ d !! "meeting_name" = None.
Proof.
  unfold is_seminar. intros H. unfold build_pdoc. rewrite H.
  repeat split; lookup_built.
Qed.

Lemma build_pdoc_meeting :
  is_seminar r = false ->
  let d := build_pdoc r key authors bd ed ∅ in
  d !! "location" = Some (VStr (rc_place r))
  /\ d !! "meeting_name" = Some (VStr (rc_name r))
  /\ d !! "institution" = None /\ d !! "department" = None.
Proof.
  unfold is_seminar. intros H. unfold build_pdoc. rewrite H.
  repeat split; lookup_built.
Qed.

End Builder.

Lemma is_seminar_true (r : rc) :
  is_seminar r = true <-> rc_type r = "seminar" \/ rc_type r = "colloquium".
Proof.
  unfold is_seminar. rewrite bool_decide_eq_true.
  rewrite !elem_of_cons, elem_of_nil. tauto.
Qed.

Lemma is_seminar_false (r : rc) :
  is_seminar r = false <-> rc_type r ≠ "seminar" /\ rc_type r ≠ "colloquium".
Proof.
  unfold is_seminar. rewrite bool_decide_eq_false.
  rewrite !elem_of_cons, elem_of_nil. tauto.
Qed.

(** ** Logs *)

Lemma inserted_app (l1 l2 : list call) :
  inserted (l1 ++ l2) = inserted l1 ++ inserted l2.
Proof. unfold inserted. apply omap_app. Qed.

Lemma inserted_calendar (l : list call) :
  forallb is_calendar_call l = true -> inserted l = [].
Proof.
  induction l as [|c l IH]; simpl; [done|].
  intros [Hc Hl]%andb_prop. destruct c; try done; by apply IH.
Qed.

Lemma no_expense_calendar (l : list call) :
  forallb is_calendar_call l = true -> existsb is_expense_constructor l = false.
Proof.
  induction l as [|c l IH]; simpl; [done|].
  intros [Hc Hl]%andb_prop. destruct c; try done; by apply IH.
Qed.

Lemma inserted_presentation (r : rc) (bd ed : date) (p key : string) :
  inserted (presentation_calls r bd ed p key)
  = [(rc_coll r, build_pdoc r key (authors_of r p) bd ed ∅)].
Proof. reflexivity. Qed.

(** ** Runs that reach the inserts *)

Section Completed.

Variable E : env.

(** Past the guard the run returns; the first record inserted is the
    presentation built from [rc], the expense follows unless it is
    suppressed. *)
Lemma run_fresh (fuel : nat) (r : rc) (bd ed : date) (p key : string) (s1 : state) :
  prefix E fuel (init r) = (Return (bd, ed, p, key), s1) ->
  duplicate_guard E key s1 = (Return ∅, s1) ->
  exists s,
    run E fuel r = (Return tt, s)
    /\ inserted (st_log s)
       = (rc_coll r, build_pdoc r key (authors_of r p) bd ed ∅)
           :: inserted (expense_calls E (st_rc s1) bd ed p key)
    /\ existsb is_expense_constructor (st_log s)
       = existsb is_expense_constructor (expense_calls E (st_rc s1) bd ed p key)
    /\ rc_webinar (st_rc s1) = rc_webinar r
    /\ rc_no_expense (st_rc s1) = rc_no_expense r
    /\ rc_no_expense (st_rc s) = rc_webinar r || rc_no_expense r.
Proof.
  intros Hp Hg.
  destruct (persist_pass E bd ed p key s1 Hg) as (s & Hrun & Hlog & _ & Hne & _).
  exists s. unfold run. rewrite db_updater_prefix, (bind_return _ _ _ _ _ Hp).
  split; [done|].
  apply prefix_return in Hp as (s0 & l0 & _ & _ & Hr0 & _ & Hl0 & Hall & ->).
  destruct (settle_fields p s0) as (_ & _ & _ & Hw & Hn & _ & Hcoll & _).
  destruct (settle_frame p s0) as (Hlog0 & _).
  rewrite Hr0 in *. rewrite Hw, Hn in Hne.
  rewrite Hlog, Hlog0, Hl0, !inserted_app, !existsb_app.
  rewrite (inserted_calendar _ Hall), (no_expense_calendar _ Hall).
  rewrite inserted_presentation, Hcoll, build_pdoc_settle, authors_of_settle, Hr0.
  done.
Qed.

Lemma run_inserted (fuel : nat) (r : rc) :
  (exists o s,
      run E fuel r = (o, s) /\ o ≠ Return tt
      /\ inserted (st_log s) = []
      /\ existsb is_expense_constructor (st_log s) = false
      /\ st_store s = [])
  \/ (exists bd ed p key s1 s,
        prefix E fuel (init r) = (Return (bd, ed, p, key), s1)
        /\ run E fuel r = (Return tt, s)
        /\ inserted (st_log s)
           = (rc_coll r, build_pdoc r key (authors_of r p) bd ed ∅)
               :: inserted (expense_calls E (st_rc s1) bd ed p key)
        /\ existsb is_expense_constructor (st_log s)
           = existsb is_expense_constructor (expense_calls E (st_rc s1) bd ed p key)
        /\ rc_webinar (st_rc s1) = rc_webinar r
        /\ rc_no_expense (st_rc s1) = rc_no_expense r
        /\ rc_no_expense (st_rc s) = rc_webinar r || rc_no_expense r).
Proof.
  destruct (run_cases E fuel r)
    as [(o & s & Hrun & Ho & Hall & Hst)|(bd & ed & p & key & s1 & s & Hp & Hg & Hrun & _)].
  - left. exists o, s. repeat split; try done.
    + by apply inserted_calendar.
    + by apply no_expense_calendar.
  - right. destruct (run_fresh fuel r bd ed p key s1 Hp Hg) as (s' & Hrun' & H).
    exists bd, ed, p, key, s1, s'. split; [done|]. split; [done|]. exact H.
Qed.

(** The presentation record of a run is the record built from [rc],
    the key and the presenter the prefix arrived at. *)
Lemma presentation_record_built (fuel : nat) (r : rc) (d : doc) :
  presentation_record E fuel r = Some d ->
  exists bd ed p key s1 s,
    prefix E fuel (init r) = (Return (bd, ed, p, key), s1)
    /\ run E fuel r = (Return tt, s)
    /\ d = build_pdoc r key (authors_of r p) bd ed ∅.
Proof.
  unfold presentation_record.
  destruct (run_inserted fuel r)
    as [(o & s & Hrun & _ & Hins & _)
       |(bd & ed & p & key & s1 & s & Hp & Hrun & Hins & _)];
    rewrite Hrun; simpl; rewrite Hins; simpl; [done|].
  intros [= <-]. by exists bd, ed, p, key, s1, s.
Qed.

End Completed.

(** ** The calendar retry loop (lines 136-143) *)

(** When the first call is refused the helper re-authenticates once and
    retries, a sleep of one second before each call; the loop ends at
    the first accepted call when the counter is then not 60. *)
Lemma calendar_notifier_retry (E : env) (r : rc) (k fuel : nat) (s : state) :
  st_rc s = r -> st_cal_calls s = 0 ->
  rc_no_cal r = false ->
  (forall i, i <= k -> add_to_google_calendar E i (event_of r) = false) ->
  add_to_google_calendar E (S k) (event_of r) = true ->
  k + 1 ≠ 60 -> k < fuel ->
  calendar_notifier E fuel s =
  (Return tt,
   mkstate r (k + 2) (st_store s)
     (st_log s ++ [AddToGoogleCalendar (event_of r) false; GoogleCalAuthFlow]
        ++ failed_turns (event_of r) k
        ++ [Sleep 1; AddToGoogleCalendar (event_of r) true])).
Proof.
  intros Hr Hc Hcal Hfail Hok Hk Hfuel.
  unfold calendar_notifier, bind, get_rc. rewrite Hr. fold (event_of r).
  rewrite Hcal; simpl. rewrite Hc, (Hfail 0) by lia; simpl.
  unfold google_cal_auth_flow, log_call; simpl.
  rewrite (retry_loop_first_success E (event_of r) k); simpl; try done.
  - rewrite Hr, <- !app_assoc. simpl. do 2 f_equal. lia.
  - intros i Hi. apply Hfail. lia.
Qed.

(** C1 (the code departs from the claim): with a calendar that refuses
    every call, the retry loop of a run that notifies the calendar does
    not stop when the attempt counter reaches 60, nor later.  Whatever
    the fuel, the run is still in the loop when the fuel is used up,
    after one refused call, one re-authentication and [fuel] retries,
    each after a sleep of one second; nothing follows the loop. *)
Theorem C1_retry_loop_unbounded (E : env) (r : rc) (fuel : nat) :
  (forall n e, add_to_google_calendar E n e = false) ->
  rc_no_cal r = false ->
  run E fuel r =
  (OutOfFuel,
   mkstate r (S fuel) []
     ([AddToGoogleCalendar (event_of r) false; GoogleCalAuthFlow]
        ++ failed_turns (event_of r) fuel)).
Proof.
  intros Hdown Hcal.
  unfold run, db_updater.
  assert (calendar_notifier E fuel (init r) =
          (OutOfFuel,
           mkstate r (S fuel) []
             ([AddToGoogleCalendar (event_of r) false; GoogleCalAuthFlow]
                ++ failed_turns (event_of r) fuel))) as Hn.
  { unfold calendar_notifier, bind, get_rc; simpl. fold (event_of r).
    rewrite Hcal; simpl. rewrite Hdown; simpl.
    unfold google_cal_auth_flow, log_call; simpl.
    by rewrite (retry_loop_down E (event_of r) fuel Hdown). }
  by rewrite (bind_out_of_fuel _ _ _ _ Hn).
Qed.

Lemma C1_retry_loop_unbounded_witness :
  (forall n e, add_to_google_calendar (env_of cal_down []) n e = false)
  /\ rc_no_cal jane = false
  /\ (run (env_of cal_down []) 61 jane).1 = OutOfFuel
  /\ st_cal_calls (run (env_of cal_down []) 61 jane).2 = 62.
Proof.
  split; [done|]. split; [done|].
  rewrite (C1_retry_loop_unbounded (env_of cal_down []) jane 61); done.
Defined.

(** The counter at 60 does not end the loop either: when the 60th retry
    is the first call accepted, one more retry is made. *)
Example retry_accepted_at_60 :
  let s := (run (env_of (cal_script (replicate 60 false)) []) 100 jane).2 in
  st_cal_calls s = 62
  /\ length (filter (fun c => is_attempt c = true) (st_log s)) = 62.
Proof. vm_compute. done. Qed.

(** A calendar that refuses once: one re-authentication, one sleep and
    one retry, then the run goes on. *)
Example refused_once :
  let s := (run (env_of (cal_script [false]) []) 1 jane).2 in
  take 4 (st_log s)
  = [AddToGoogleCalendar (event_of jane) false; GoogleCalAuthFlow;
     Sleep 1; AddToGoogleCalendar (event_of jane) true]
  /\ fst <$> inserted (st_log s) = [TARGET_COLL; EXPENSES_COLL].
Proof. vm_compute. done. Qed.

(** With [--no_cal] the calendar is not called at all. *)
Example no_cal_skips :
  let s := (run (env_of cal_down []) 0 (with_no_cal true jane)).2 in
  filter (fun c => is_calendar_call c = true) (st_log s) = []
  /\ fst <$> inserted (st_log s) = [TARGET_COLL; EXPENSES_COLL].
Proof. vm_compute. done. Qed.

(** ** The duplicate guard (lines 169-175) *)

(** When an explicit id is given, it is the key. *)
Lemma key_reached_explicit (E : env) (fuel : nat) (r : rc) (key : string) :
  key_reached E fuel r = Some key ->
  PyStr.truthy (rc_id r) = true -> rc_id r = Some key.
Proof.
  unfold key_reached.
  destruct (prefix E fuel (init r)) as [[[[[bd ed] p] k]|e|] s1] eqn:Hp; try done.
  intros [= ->] Ht.
  apply prefix_return in Hp as (s0 & l0 & _ & Hd & Hr & _).
  apply derive_return in Hd as (_ & _ & _ & (nk & _ & ->) & _).
  rewrite Hr. unfold key_of. rewrite Ht; simpl.
  by destruct (rc_id r).
Qed.

(** A run that arrives at a key held by the snapshot stops at the guard. *)
Lemma duplicate_aborts (E : env) (fuel : nat) (r : rc) (key : string) :
  key_reached E fuel r = Some key ->
  snapshot_ok (gtx_coll E) ->
  has_id key (gtx_coll E) ->
  exists s,
    run E fuel r = (Raise (RuntimeError EXISTS_MSG), s)
    /\ inserted (st_log s) = []
    /\ st_store s = [].
Proof.
  intros Hk Hok Hdup.
  unfold key_reached in Hk.
  destruct (prefix E fuel (init r)) as [[[[[bd ed] p] k]|e|] s1] eqn:Hp; try done.
  injection Hk as ->.
  exists s1. destruct (prefix_frame E _ _ _ _ Hp) as (Hall & Hst & _).
  unfold run. rewrite db_updater_prefix, (bind_return _ _ _ _ _ Hp).
  rewrite (persist_abort E bd ed p key s1 _ (duplicate_guard_exists E key s1 Hok Hdup)).
  repeat split; try done. by apply inserted_calendar.
Qed.

(** C2: on a snapshot whose records all expose an [_id], a run that
    arrives at a key, derived or explicit, that a record of the snapshot
    has as its id ends in the error "This entry appears to already exist
    in the collection", [insert_one] has not been called and the store
    is as it was; and a run with an explicit id that a record of the
    snapshot has never returns normally, calls [insert_one] or writes
    to the store, wherever it stops. *)
Theorem C2_duplicate_key_aborts (E : env) (fuel : nat) (r : rc) :
  snapshot_ok (gtx_coll E) ->
  (forall key,
      key_reached E fuel r = Some key ->
      has_id key (gtx_coll E) ->
      exists s,
        run E fuel r = (Raise (RuntimeError EXISTS_MSG), s)
        /\ inserted (st_log s) = []
        /\ st_store s = []
        /\ (PyStr.truthy (rc_id r) = true -> rc_id r = Some key))
  /\ (forall i,
        rc_id r = Some i -> i ≠ "" ->
        has_id i (gtx_coll E) ->
        exists o s,
          run E fuel r = (o, s) /\ o ≠ Return tt
          /\ inserted (st_log s) = [] /\ st_store s = []).
Proof.
  intros Hok. split.
  - intros key Hk Hdup.
    destruct (duplicate_aborts E fuel r key Hk Hok Hdup) as (s & Hrun & Hins & Hst).
    exists s. repeat split; try done.
    by apply (key_reached_explicit E fuel r key Hk).
  - intros i Hid Hi Hdup.
    destruct (key_reached E fuel r) as [key|] eqn:Hk.
    + assert (key = i) as ->.
      { apply key_reached_explicit in Hk.
        - congruence.
        - rewrite Hid. simpl. by destruct (String.eqb_spec i ""). }
      destruct (duplicate_aborts E fuel r i Hk Hok Hdup) as (s & Hrun & Hins & Hst).
      by exists (Raise (RuntimeError EXISTS_MSG)), s.
    + destruct (run_inserted E fuel r)
        as [(o & s & Hrun & Ho & Hins & _ & Hst)
           |(bd & ed & p & key & s1 & s & Hp & _)].
      * by exists o, s.
      * unfold key_reached in Hk. by rewrite Hp in Hk.
Qed.

Lemma C2_duplicate_key_aborts_witness :
  key_reached (env_of cal_ok [stored "2305jd_mitboston"]) 0 jane
  = Some "2305jd_mitboston"
  /\ (run (env_of cal_ok [stored "2305jd_mitboston"]) 0 jane).1
     = Raise (RuntimeError EXISTS_MSG).
Proof.
  split; [by vm_compute|].
  destruct (C2_duplicate_key_aborts (env_of cal_ok [stored "2305jd_mitboston"])
              0 jane) as [H _].
  - repeat constructor. by eexists.
  - destruct (H "2305jd_mitboston") as (s & -> & _).
    + by vm_compute.
    + by left.
    + reflexivity.
Defined.

(** The same with an explicit id. *)
Example duplicate_explicit_id :
  let E := env_of cal_ok [stored "talk1"] in
  let '(o, s) := run E 0 (with_id "talk1" jane) in
  o = Raise (RuntimeError EXISTS_MSG) /\ inserted (st_log s) = [] /\ st_store s = [].
Proof. vm_compute. done. Qed.

(** ** The derived key (lines 158-167) *)



(** What the prefix of a run that returns has derived. *)
Lemma prefix_key (E : env) (fuel : nat) (r : rc) (bd ed : date) (p key : string)
    (s : state) :
  prefix E fuel (init r) = (Return (bd, ed, p, key), s) ->
  date_parser_parse E (rc_begin_date r) = Some bd
  /\ presenter_of r = Some p
  /\ exists nk, name_key p = Some nk /\ key = key_of r bd nk.
Proof.
  intros Hp.
  apply prefix_return in Hp as (s0 & l0 & _ & Hd & Hr & _).
  apply derive_return in Hd as (Hb & _ & Hpres & Hk & _).
  by rewrite Hr in *.
Qed.




(** ** The initials (lines 158-162) *)



(** ** The record (lines 178-204) *)

(** The record of the run for Jane Doe, and of the same run with the
    type "invited". *)
Example jane_record :
  presentation_record (env_of cal_ok []) 0 jane
  = Some (build_pdoc jane "2305jd_mitboston" ["Jane Doe"] d_2023_05_10 d_2023_05_12 ∅).
Proof. vm_compute. reflexivity. Qed.

Example jane_invited_record :
  presentation_record (env_of cal_ok []) 0 (with_type "invited" jane)
  = Some (build_pdoc (with_type "invited" jane) "2305jd_mitboston" ["Jane Doe"]
            d_2023_05_10 d_2023_05_12 ∅).
Proof. vm_compute. reflexivity. Qed.

(** C5 (as amended): for the presenter "Jane Doe", a begin date in May
    2023, the place "MIT Boston", the type "seminar" and no explicit id
    the key is "2305jd_mitboston"; the record built has the institution
    "MIT Boston", the department [rc.name] and neither location nor
    meeting name; and on a snapshot without that key the run returns
    with this record as the first one inserted. *)
Theorem C5_jane_doe (E : env) (fuel : nat) (r : rc) (bd ed : date)
    (p key : string) (s1 : state) :
  prefix E fuel (init r) = (Return (bd, ed, p, key), s1) ->
  rc_person r = Some "Jane Doe" ->
  year bd = 2023%Z -> month bd = 5%Z ->
  rc_place r = "MIT Boston" ->
  rc_type r = "seminar" ->
  PyStr.truthy (rc_id r) = false ->
  let d := build_pdoc r key (authors_of r p) bd ed ∅ in
  key = "2305jd_mitboston"
  /\ d !! "institution" = Some (VStr "MIT Boston")
  /\ d !! "department" = Some (VStr (rc_name r))
  /\ d !! "location" = None
  /\ d !! "meeting_name" = None
  /\ (snapshot_ok (gtx_coll E) -> ~ has_id key (gtx_coll E) ->
      exists s, run E fuel r = (Return tt, s)
                /\ head (inserted (st_log s)) = Some (rc_coll r, d)).
Proof.
  intros Hp Hperson Hy Hm Hplace Htype Hid d.
  pose proof Hp as Hp'.
  apply prefix_key in Hp' as (_ & Hpres & nk & Hnk & Hkey).
  unfold presenter_of in Hpres. rewrite Hperson in Hpres. simpl in Hpres.
  injection Hpres as <-.
  assert (nk = "jd") as -> by (vm_compute in Hnk; congruence).
  assert (key = "2305jd_mitboston") as Hk.
  { rewrite Hkey. unfold key_of. rewrite Hid; simpl.
    unfold derived_key, strftime_m. by rewrite Hy, Hm, Hplace. }
  assert (is_seminar r = true) as Hsem by (apply is_seminar_true; by left).
  destruct (build_pdoc_seminar r key (authors_of r "Jane Doe") bd ed Hsem)
    as (Hi & Hd & Hl & Hmn).
  rewrite Hplace in Hi.
  repeat split; try done.
  intros Hok Hfresh.
  destruct (run_fresh E fuel r bd ed "Jane Doe" key s1 Hp
              (duplicate_guard_fresh E key s1 Hok Hfresh)) as (s & Hrun & Hins & _).
  exists s. split; [done|]. by rewrite Hins.
Qed.

Lemma C5_jane_doe_witness :
  key_reached (env_of cal_ok []) 0 jane = Some "2305jd_mitboston"
  /\ presentation_record (env_of cal_ok []) 0 jane
     = Some (build_pdoc jane "2305jd_mitboston" ["Jane Doe"]
               d_2023_05_10 d_2023_05_12 ∅)
  /\ build_pdoc jane "2305jd_mitboston" ["Jane Doe"] d_2023_05_10 d_2023_05_12 ∅
       !! "institution" = Some (VStr "MIT Boston").
Proof.
  split; [vm_compute; reflexivity|]. split; [exact jane_record|].
  refine (proj1 (proj2 (C5_jane_doe (env_of cal_ok []) 0 jane
            d_2023_05_10 d_2023_05_12 "Jane Doe" "2305jd_mitboston"
            (prefix (env_of cal_ok []) 0 (init jane)).2 _ _ _ _ _ _ _)));
    by vm_compute.
Defined.

(** C5 (as stated) fails: the key has the month as "05", not "ma". *)
Lemma C5_counterexample :
  key_reached (env_of cal_ok []) 0 jane = Some "2305jd_mitboston"
  /\ key_reached (env_of cal_ok []) 0 jane ≠ Some "23majd_mitboston".
Proof. split; by vm_compute. Qed.

(** C6: the presentation record of a run whose type is "seminar" or
    "colloquium" has the institution [rc.place] and the department
    [rc.name] and neither location nor meeting name; for every other
    type it has the location [rc.place] and the meeting name [rc.name]
    and neither institution nor department. *)
Theorem C6_type_fields (E : env) (fuel : nat) (r : rc) (d : doc) :
  presentation_record E fuel r = Some d ->
  (rc_type r = "seminar" \/ rc_type r = "colloquium" ->
   d !! "institution" = Some (VStr (rc_place r))
   /\ d !! "department" = Some (VStr (rc_name r))
   /\ d !! "location" = None /\ d !! "meeting_name" = None)
  /\ (rc_type r ≠ "seminar" -> rc_type r ≠ "colloquium" ->
      d !! "location" = Some (VStr (rc_place r))
      /\ d !! "meeting_name" = Some (VStr (rc_name r))
      /\ d !! "institution" = None /\ d !! "department" = None).
Proof.
  intros (bd & ed & p & key & s1 & s & _ & _ & ->)%presentation_record_built.
  split.
  - intros Ht%is_seminar_true. by apply build_pdoc_seminar.
  - intros H1 H2. apply build_pdoc_meeting. by apply is_seminar_false.
Qed.

Lemma C6_type_fields_witness :
  let d1 := build_pdoc jane "2305jd_mitboston" ["Jane Doe"]
              d_2023_05_10 d_2023_05_12 ∅ in
  let d2 := build_pdoc (with_type "invited" jane) "2305jd_mitboston" ["Jane Doe"]
              d_2023_05_10 d_2023_05_12 ∅ in
  presentation_record (env_of cal_ok []) 0 jane = Some d1
  /\ presentation_record (env_of cal_ok []) 0 (with_type "invited" jane) = Some d2
  /\ d1 !! "institution" = Some (VStr "MIT Boston")
  /\ d1 !! "location" = None
  /\ d2 !! "location" = Some (VStr "MIT Boston")
  /\ d2 !! "institution" = None.
Proof.
  intros d1 d2.
  pose proof jane_record as H1. pose proof jane_invited_record as H2.
  split; [exact H1|]. split; [exact H2|].
  destruct (C6_type_fields _ _ _ _ H1) as [Hs _].
  destruct (C6_type_fields _ _ _ _ H2) as [_ Hm].
  destruct Hs as (Hi & _ & Hl & _); [by left|].
  destruct Hm as (Hl' & _ & Hi' & _); [done|done|].
  done.
Defined.

(** ** Webinars and the expense (lines 191-193, 209-217) *)

(** C7: in a run with the webinar flag set, whatever [--no-expense]
    was, the expense constructor is never called; either nothing is
    inserted (the run did not return), or the run returns with
    [rc.no_expense] true and exactly one record inserted, the
    presentation, which carries [webinar: True]. *)
Theorem C7_webinar_no_expense (E : env) (fuel : nat) (r : rc) :
  rc_webinar r = true ->
  exists o s,
    run E fuel r = (o, s)
    /\ existsb is_expense_constructor (st_log s) = false
    /\ ((o ≠ Return tt /\ inserted (st_log s) = [])
        \/ (o = Return tt
            /\ rc_no_expense (st_rc s) = true
            /\ exists d, inserted (st_log s) = [(rc_coll r, d)]
                         /\ presentation_record E fuel r = Some d
                         /\ d !! "webinar" = Some (VBool true))).
Proof.
  intros Hw.
  destruct (run_inserted E fuel r)
    as [(o & s & Hrun & Ho & Hins & Hexp & _)
       |(bd & ed & p & key & s1 & s & Hp & Hrun & Hins & Hexp & Hw1 & _ & Hne)].
  - exists o, s. split; [done|]. split; [done|]. by left.
  - exists (Return tt), s.
    assert (expense_calls E (st_rc s1) bd ed p key = []) as Hnone
      by (unfold expense_calls; by rewrite Hw1, Hw).
    rewrite Hnone in Hins, Hexp.
    split; [done|]. split; [done|]. right.
    split; [done|]. split; [by rewrite Hne, Hw|].
    eexists. split; [exact Hins|]. split.
    + unfold presentation_record. by rewrite Hrun; simpl; rewrite Hins.
    + by rewrite build_pdoc_webinar, Hw.
Qed.

Lemma C7_webinar_no_expense_witness :
  rc_webinar (with_webinar true jane) = true
  /\ rc_no_expense (with_webinar true jane) = false
  /\ rc_no_expense (st_rc (run (env_of cal_ok []) 0 (with_webinar true jane)).2) = true
  /\ existsb is_expense_constructor
       (st_log (run (env_of cal_ok []) 0 (with_webinar true jane)).2) = false.
Proof.
  split; [reflexivity|]. split; [reflexivity|].
  destruct (C7_webinar_no_expense (env_of cal_ok []) 0 (with_webinar true jane))
    as (o & s & Hrun & Hexp & [[Ho _]|(-> & Hne & _)]); [reflexivity|..].
  - exfalso. apply Ho.
    assert ((run (env_of cal_ok []) 0 (with_webinar true jane)).1 = Return tt) as H
      by (vm_compute; reflexivity).
    by rewrite Hrun in H.
  - by rewrite Hrun.
Defined.

(** Without the webinar flag and without [--no-expense] the expense is
    constructed and inserted after the presentation. *)
Example expense_follows :
  let s := (run (env_of cal_ok []) 0 jane).2 in
  fst <$> inserted (st_log s) = [TARGET_COLL; EXPENSES_COLL]
  /\ existsb is_expense_constructor (st_log s) = true.
Proof. vm_compute. done. Qed.

(** ** The presenter and the authors (lines 150-157, 178-181) *)

Lemma presenter_of_none (r : rc) :
  PyStr.truthy (rc_person r) = false -> rc_default_user_id r = None ->
  presenter_of r = None.
Proof. intros H1 H2. unfold presenter_of. by rewrite H1. Qed.

(** The calendar notifier returns when it is suppressed or when the
    calendar accepts the first call. *)
Lemma calendar_returns_intro (E : env) (fuel : nat) (r : rc) :
  rc_no_cal r = true \/ add_to_google_calendar E 0 (event_of r) = true ->
  calendar_returns E fuel r.
Proof.
  unfold calendar_returns. intros [H|H].
  - by rewrite calendar_notifier_no_cal.
  - destruct (rc_no_cal r) eqn:Hcal.
    + by rewrite calendar_notifier_no_cal.
    + by rewrite calendar_notifier_first_ok.
Qed.

(** A run whose calendar notifier returns and that has no presenter
    ends in an error: the parser's when a date does not parse, else the
    one of line 154. *)
Lemma run_no_person (E : env) (fuel : nat) (r : rc) :
  calendar_returns E fuel r ->
  presenter_of r = None ->
  exists s,
    run E fuel r =
    (Raise (match date_parser_parse E (rc_begin_date r),
                  date_parser_parse E (rc_end_date r) with
            | Some _, Some _ => RuntimeError NO_PERSON_MSG
            | _, _ => ParserError
            end), s)
    /\ inserted (st_log s) = [] /\ st_store s = [].
Proof.
  unfold calendar_returns. intros Hc Hp.
  destruct (calendar_notifier E fuel (init r)) as [o s0] eqn:Hn. simpl in Hc. subst o.
  destruct (calendar_notifier_frame E _ _ _ _ Hn)
    as (_ & Hrc & Hst & l & Hl & Hall & _); simpl in *.
  exists s0. unfold run, db_updater. rewrite (bind_return _ _ _ _ _ Hn).
  assert (inserted (st_log s0) = [] /\ st_store s0 = []) as Hs0
    by (rewrite Hl, Hst; split; [by apply inserted_calendar|done]).
  rewrite <- Hrc in *.
  destruct (date_parser_parse E (rc_begin_date (st_rc s0))) as [bd|] eqn:Hb.
  - destruct (date_parser_parse E (rc_end_date (st_rc s0))) as [ed|] eqn:He.
    + by rewrite (bind_raise _ _ _ _ _ (derive_no_person E s0 bd ed Hb He Hp)).
    + by rewrite (bind_raise _ _ _ _ _ (derive_bad_end E s0 bd Hb He)).
  - by rewrite (bind_raise _ _ _ _ _ (derive_bad_begin E s0 Hb)).
Qed.

(** C8: a run with no presenter on the command line and no
    [default_user_id] never returns normally and inserts nothing; when
    its calendar notifier returns it ends in an error, the one of line
    154 when the dates parse.  And the presentation record of a run
    without [--authors] has as authors the presenter alone. *)
Theorem C8_presenter_and_authors (E : env) (fuel : nat) (r : rc) :
  (PyStr.truthy (rc_person r) = false -> rc_default_user_id r = None ->
   (exists o s, run E fuel r = (o, s) /\ o ≠ Return tt
                /\ inserted (st_log s) = [] /\ st_store s = [])
   /\ (calendar_returns E fuel r ->
       exists e s, run E fuel r = (Raise e, s)
                   /\ (is_Some (date_parser_parse E (rc_begin_date r)) ->
                       is_Some (date_parser_parse E (rc_end_date r)) ->
                       e = RuntimeError NO_PERSON_MSG)))
  /\ (forall d, truthy_list (rc_authors r) = false ->
        presentation_record E fuel r = Some d ->
        exists p, presenter_of r = Some p /\ d !! "authors" = Some (VList [p])).
Proof.
  split.
  - intros H1 H2. pose proof (presenter_of_none r H1 H2) as Hp. split.
    + destruct (run_inserted E fuel r)
        as [(o & s & Hrun & Ho & Hins & _ & Hst)
           |(bd & ed & p & key & s1 & s & Hpre & _)].
      * by exists o, s.
      * apply prefix_key in Hpre as (_ & Hpres & _). congruence.
    + intros Hc. destruct (run_no_person E fuel r Hc Hp) as (s & Hrun & _).
      eexists _, s. split; [exact Hrun|].
      intros [bd ->] [ed ->]. done.
  - intros d Ha (bd & ed & p & key & s1 & s & Hpre & _ & ->)%presentation_record_built.
    apply prefix_key in Hpre as (_ & Hpres & _).
    exists p. split; [done|].
    rewrite build_pdoc_authors. unfold authors_of. by rewrite Ha.
Qed.

Lemma C8_presenter_and_authors_witness :
  let nobody := args "Physics" "MIT Boston" "2023-05-10" "2023-05-12" "db" in
  (run (env_of cal_ok []) 0 nobody).1 = Raise (RuntimeError NO_PERSON_MSG)
  /\ (presentation_record (env_of cal_ok []) 0 jane ≫= (.!! "authors"))
     = Some (VList ["Jane Doe"]).
Proof.
  intros nobody.
  destruct (C8_presenter_and_authors (env_of cal_ok []) 0 nobody) as [H1 _].
  destruct (C8_presenter_and_authors (env_of cal_ok []) 0 jane) as [_ H2].
  split.
  - destruct H1 as [_ H1]; [reflexivity|reflexivity|].
    destruct H1 as (e & s & -> & He); [reflexivity|].
    simpl. rewrite He; [done|by eexists|by eexists].
  - destruct (H2 _ eq_refl jane_record) as (p & Hp & Hauth).
    rewrite jane_record. simpl. rewrite Hauth.
    vm_compute in Hp. by injection Hp as <-.
Defined.

(** ** The order of the steps *)

Section Order.

Variable E : env.

(** The prefix logs what the calendar notifier logs. *)
Lemma prefix_log (fuel : nat) (r : rc) :
  st_log (prefix E fuel (init r)).2 = st_log (calendar_notifier E fuel (init r)).2.
Proof.
  unfold prefix, bind.
  destruct (calendar_notifier E fuel (init r)) as [[[]|e|] s0]; simpl; try done.
  destruct (derive E s0) as [o s1] eqn:Hd.
  by apply derive_frame in Hd as (_ & _ & _ & Hl).
Qed.

(** A run that does not return stopped in the prefix or at the guard. *)
Lemma run_not_return (fuel : nat) (r : rc) o (s : state) :
  run E fuel r = (o, s) -> o ≠ Return tt -> s = (prefix E fuel (init r)).2.
Proof.
  unfold run. rewrite db_updater_prefix.
  destruct (prefix E fuel (init r)) as [op s1] eqn:Hp.
  destruct op as [[[[bd ed] p] key]|e'|].
  - rewrite (bind_return _ _ _ _ _ Hp).
    destruct (duplicate_guard E key s1) as [og sg] eqn:Hg.
    destruct (duplicate_guard_frame E _ _ _ _ Hg) as [-> [->|[e' ->]]].
    + destruct (persist_pass E bd ed p key s1 Hg) as (s' & -> & _).
      by intros [= <- <-].
    + rewrite (persist_abort E _ _ _ _ _ _ Hg). by intros [= _ <-].
  - rewrite (bind_raise _ _ _ _ _ Hp). by intros [= _ <-].
  - rewrite (bind_out_of_fuel _ _ _ _ Hp). by intros [= _ <-].
Qed.


End Order.



(** The same with the presenter missing and with a date that does not
    parse: the event has been created when the error is raised. *)
Example aborted_after_calendar :
  let nobody := args "Physics" "MIT Boston" "2023-05-10" "2023-05-12" "db" in
  let undated := with_person "Jane Doe" (args "Physics" "MIT Boston" "May" "2023-05-12" "db") in
  run (env_of cal_ok []) 0 nobody
  = (Raise (RuntimeError NO_PERSON_MSG),
     mkstate nobody 1 [] [AddToGoogleCalendar (event_of nobody) true])
  /\ run (env_of cal_ok []) 0 undated
     = (Raise ParserError,
        mkstate undated 1 [] [AddToGoogleCalendar (event_of undated) true]).
Proof. split; reflexivity. Qed.

(** ** An explicit id does not bypass the presenter *)




(** ** The retry loop, turn by turn *)

Section Turns.

Variable E : env.
Variable event : cal_event.

Lemma turns_S (c n : nat) :
  turns E event c (S n)
  = [Sleep 1; AddToGoogleCalendar event (add_to_google_calendar E c event)]
      ++ turns E event (S c) n.
Proof.
  unfold turns. rewrite <- cons_seq, <- fmap_S_seq. simpl.
  rewrite Nat.add_0_r. do 2 f_equal.
  rewrite <- list_fmap_compose. f_equal.
  apply list_fmap_ext. intros _ i _. simpl. by rewrite Nat.add_succ_r.
Qed.

Lemma ends_loop_S (c j k : nat) :
  ends_loop E event (S c) (j + 1) k = ends_loop E event c j (S k).
Proof.
  unfold ends_loop.
  replace (S c + k) with (c + S k) by lia.
  by replace (j + 1 + k + 1) with (j + S k + 1) by lia.
Qed.

(** The loop is left at once when its condition is false. *)
Lemma retry_loop_exit (fuel : nat) (w : bool) (j : nat) (s : state) :
  negb w || (j =? 60)%nat = false ->
  retry_loop E event fuel w j s = (Return tt, s).
Proof. intros H. destruct fuel; simpl; by rewrite H. Qed.

(** One turn of the loop. *)
Lemma retry_loop_turn (fuel : nat) (w : bool) (j : nat) (s : state) :
  negb w || (j =? 60)%nat = true ->
  retry_loop E event (S fuel) w j s
  = retry_loop E event fuel (add_to_google_calendar E (st_cal_calls s) event) (j + 1)
      (mkstate (st_rc s) (S (st_cal_calls s)) (st_store s)
         (st_log s ++ [Sleep 1;
                       AddToGoogleCalendar event
                         (add_to_google_calendar E (st_cal_calls s) event)])).
Proof.
  intros H. simpl. rewrite H.
  unfold bind, time_sleep, log_call, add_cal; simpl.
  by rewrite <- app_assoc.
Qed.

(** The loop returns at the first turn that leaves its condition false. *)
Lemma retry_loop_ends (k : nat) :
  forall (fuel : nat) (w : bool) (j : nat) (s : state),
    negb w || (j =? 60)%nat = true ->
    (forall i, i < k -> ends_loop E event (st_cal_calls s) j i = false) ->
    ends_loop E event (st_cal_calls s) j k = true ->
    k < fuel ->
    retry_loop E event fuel w j s
    = (Return tt,
       mkstate (st_rc s) (st_cal_calls s + S k) (st_store s)
         (st_log s ++ turns E event (st_cal_calls s) (S k))).
Proof.
  induction k as [|k IH]; intros fuel w j s Hw Hbefore Hend Hfuel;
    (destruct fuel as [|fuel]; [lia|]); rewrite retry_loop_turn by done.
  - unfold ends_loop in Hend. rewrite !Nat.add_0_r in Hend.
    apply andb_prop in Hend as [Hok Hj]. rewrite Hok.
    rewrite retry_loop_exit by (simpl; by destruct (j + 1 =? 60)%nat).
    rewrite turns_S. unfold turns; simpl. rewrite Hok.
    do 2 f_equal. lia.
  - pose proof (Hbefore 0 ltac:(lia)) as H0.
    unfold ends_loop in H0. rewrite !Nat.add_0_r in H0.
    rewrite IH; simpl.
    + rewrite (turns_S _ (S k)), <- app_assoc. do 2 f_equal. lia.
    + destruct (add_to_google_calendar E (st_cal_calls s) event); simpl in *; [|done].
      by destruct (j + 1 =? 60)%nat.
    + intros i Hi. rewrite ends_loop_S. apply Hbefore. lia.
    + by rewrite ends_loop_S.
    + lia.
Qed.

(** Without such a turn within the fuel the loop is still running when
    the fuel is used up. *)
Lemma retry_loop_runs_out (fuel : nat) :
  forall (w : bool) (j : nat) (s : state),
    negb w || (j =? 60)%nat = true ->
    (forall i, i < fuel -> ends_loop E event (st_cal_calls s) j i = false) ->
    retry_loop E event fuel w j s
    = (OutOfFuel,
       mkstate (st_rc s) (st_cal_calls s + fuel) (st_store s)
         (st_log s ++ turns E event (st_cal_calls s) fuel)).
Proof.
  induction fuel as [|fuel IH]; intros w j s Hw Hnone.
  - simpl. rewrite Hw. unfold out_of_fuel, turns; simpl.
    rewrite Nat.add_0_r, app_nil_r. by destruct s.
  - rewrite retry_loop_turn by done.
    pose proof (Hnone 0 ltac:(lia)) as H0.
    unfold ends_loop in H0. rewrite !Nat.add_0_r in H0.
    rewrite IH; simpl.
    + rewrite (turns_S _ fuel), <- app_assoc. do 2 f_equal. lia.
    + destruct (add_to_google_calendar E (st_cal_calls s) event); simpl in *; [|done].
      by destruct (j + 1 =? 60)%nat.
    + intros i Hi. rewrite ends_loop_S. apply Hnone. lia.
Qed.

(** Whatever the calendar answers, the loop makes a number of whole
    turns, at most one per unit of fuel. *)
Lemma retry_loop_turns (fuel : nat) :
  forall (w : bool) (j : nat) (s : state),
    exists n, n <= fuel
      /\ st_log (retry_loop E event fuel w j s).2
         = st_log s ++ turns E event (st_cal_calls s) n.
Proof.
  induction fuel as [|fuel IH]; intros w j s.
  - exists 0. split; [done|]. simpl.
    destruct (negb w || (j =? 60)%nat); simpl; by rewrite app_nil_r.
  - destruct (negb w || (j =? 60)%nat) eqn:Hw.
    + rewrite retry_loop_turn by done.
      edestruct IH as (n & Hn & ->). simpl.
      exists (S n). split; [lia|]. by rewrite turns_S, <- app_assoc.
    + rewrite retry_loop_exit by done. exists 0. split; [lia|].
      simpl. by rewrite app_nil_r.
Qed.

End Turns.

(** ** The calendar notifier, in full *)

(** The first index at which a test holds. *)
Lemma least_true (n : nat) :
  forall f : nat -> bool,
    f n = true ->
    exists k, k <= n /\ f k = true /\ forall i, i < k -> f i = false.
Proof.
  induction n as [|n IH]; intros f Hn.
  - exists 0. split; [done|]. split; [done|]. intros i Hi. lia.
  - destruct (f 0) eqn:H0.
    + exists 0. split; [lia|]. split; [done|]. intros i Hi. lia.
    + destruct (IH (fun i => f (S i)) Hn) as (k & Hk & Hfk & Hbefore).
      exists (S k). split; [lia|]. split; [done|].
      intros [|i] Hi; [done|]. apply Hbefore. lia.
Qed.

Lemma bounded_search (f : nat -> bool) (n : nat) :
  (exists k, k < n /\ f k = true) \/ (forall i, i < n -> f i = false).
Proof.
  induction n as [|n [(k & Hk & Hf)|Hnone]].
  - right. intros i Hi. lia.
  - left. exists k. split; [lia|done].
  - destruct (f n) eqn:Hn.
    + left. exists n. split; [lia|done].
    + right. intros i Hi. destruct (decide (i = n)) as [->|]; [done|].
      apply Hnone. lia.
Qed.

(** After a refused first call: one re-authentication, then the turns
    of the loop up to the first one that is accepted with the counter
    not at 60, and the notifier returns. *)
Theorem notifier_retries_until_accepted (E : env) (fuel k : nat) (r : rc) :
  rc_no_cal r = false ->
  add_to_google_calendar E 0 (event_of r) = false ->
  (forall i, i < k -> ends_loop E (event_of r) 1 0 i = false) ->
  ends_loop E (event_of r) 1 0 k = true ->
  k < fuel ->
  calendar_notifier E fuel (init r)
  = (Return tt,
     mkstate r (k + 2) []
       ([AddToGoogleCalendar (event_of r) false; GoogleCalAuthFlow]
          ++ turns E (event_of r) 1 (S k))).
Proof.
  intros Hcal H0 Hbefore Hend Hfuel.
  unfold calendar_notifier, bind, get_rc; simpl. fold (event_of r).
  rewrite Hcal; simpl. rewrite H0; simpl.
  unfold google_cal_auth_flow, log_call; simpl.
  rewrite (retry_loop_ends E (event_of r) k); simpl; try done.
  do 2 f_equal. lia.
Qed.

Lemma notifier_retries_until_accepted_witness :
  let E' := env_of (cal_script [false; false; false]) [] in
  calendar_notifier E' 5 (init jane)
  = (Return tt,
     mkstate jane 4 []
       [AddToGoogleCalendar (event_of jane) false; GoogleCalAuthFlow;
        Sleep 1; AddToGoogleCalendar (event_of jane) false;
        Sleep 1; AddToGoogleCalendar (event_of jane) false;
        Sleep 1; AddToGoogleCalendar (event_of jane) true]).
Proof.
  intros E'.
  rewrite (notifier_retries_until_accepted E' 5 2 jane).
  - reflexivity.
  - reflexivity.
  - reflexivity.
  - intros [|[|i]] Hi; [reflexivity|reflexivity|lia].
  - reflexivity.
  - lia.
Defined.

(** The notifier returns exactly when it is suppressed, or the first
    call is accepted, or some turn of the loop within the fuel is
    accepted with the counter not at 60. *)
Theorem calendar_returns_iff (E : env) (fuel : nat) (r : rc) :
  calendar_returns E fuel r
  <-> rc_no_cal r = true
      \/ add_to_google_calendar E 0 (event_of r) = true
      \/ exists k, k < fuel /\ ends_loop E (event_of r) 1 0 k = true.
Proof.
  split.
  - intros Hret.
    destruct (rc_no_cal r) eqn:Hcal; [by left|]. right.
    destruct (add_to_google_calendar E 0 (event_of r)) eqn:H0; [by left|]. right.
    destruct (bounded_search (ends_loop E (event_of r) 1 0) fuel) as [Hk|Hnone]; [done|].
    exfalso. unfold calendar_returns in Hret.
    unfold calendar_notifier, bind, get_rc in Hret; simpl in Hret.
    fold (event_of r) in Hret. rewrite Hcal in Hret; simpl in Hret.
    rewrite H0 in Hret; simpl in Hret.
    unfold google_cal_auth_flow, log_call in Hret; simpl in Hret.
    by rewrite (retry_loop_runs_out E (event_of r) fuel) in Hret.
  - intros [Hcal|[H0|(k & Hk & Hend)]].
    + apply calendar_returns_intro. by left.
    + apply calendar_returns_intro. by right.
    + destruct (rc_no_cal r) eqn:Hcal; [apply calendar_returns_intro; by left|].
      destruct (add_to_google_calendar E 0 (event_of r)) eqn:H0;
        [apply calendar_returns_intro; by right|].
      destruct (least_true k (ends_loop E (event_of r) 1 0) Hend)
        as (k' & Hk' & Hend' & Hbefore).
      unfold calendar_returns.
      by rewrite (notifier_retries_until_accepted E fuel k' r Hcal H0 Hbefore Hend')
        by lia.
Qed.

(** The log of the notifier: nothing when it is suppressed; else the
    first call, and after a refusal one re-authentication and whole
    turns of the loop, at most one per unit of fuel. *)
Lemma calendar_notifier_log (E : env) (fuel : nat) (r : rc) :
  exists n, n <= fuel
    /\ st_log (calendar_notifier E fuel (init r)).2
       = if rc_no_cal r then []
         else AddToGoogleCalendar (event_of r) (add_to_google_calendar E 0 (event_of r))
              :: (if add_to_google_calendar E 0 (event_of r) then []
                  else GoogleCalAuthFlow :: turns E (event_of r) 1 n).
Proof.
  unfold calendar_notifier, bind, get_rc; simpl. fold (event_of r).
  destruct (rc_no_cal r); simpl; [by exists 0; split; [lia|]|].
  destruct (add_to_google_calendar E 0 (event_of r)); simpl;
    [by exists 0; split; [lia|]|].
  unfold google_cal_auth_flow, log_call; simpl.
  edestruct (retry_loop_turns E (event_of r) fuel false 0) as (n & Hn & ->).
  by exists n.
Qed.

Lemma calendar_calls_all (l : list call) :
  forallb is_calendar_call l = true -> calendar_calls l = l.
Proof.
  unfold calendar_calls. induction l as [|c l IH]; simpl; [done|].
  intros [Hc Hl]%andb_prop. rewrite filter_cons_True by done. by rewrite IH.
Qed.

Lemma calendar_calls_app (l1 l2 : list call) :
  calendar_calls (l1 ++ l2) = calendar_calls l1 ++ calendar_calls l2.
Proof. unfold calendar_calls. apply filter_app. Qed.

Lemma calendar_calls_persist (E : env) (r : rc) (bd ed : date) (p key : string) :
  calendar_calls (presentation_calls r bd ed p key ++ expense_calls E r bd ed p key) = [].
Proof.
  unfold presentation_calls, expense_calls.
  by destruct (rc_webinar r || rc_no_expense r).
Qed.

(** The calendar calls of a run are those of its notifier. *)
Lemma run_calendar_log (E : env) (fuel : nat) (r : rc) :
  calendar_calls (st_log (run E fuel r).2)
  = st_log (calendar_notifier E fuel (init r)).2.
Proof.
  assert (forallb is_calendar_call (st_log (calendar_notifier E fuel (init r)).2) = true)
    as Hall.
  { destruct (calendar_notifier E fuel (init r)) as [o s0] eqn:Hn.
    destruct (calendar_notifier_frame E _ _ _ _ Hn) as (_ & _ & _ & l & Hl & Hall & _).
    simpl in *. by rewrite Hl. }
  destruct (run_cases E fuel r)
    as [(o & s & Hrun & Ho & _)
       |(bd & ed & p & key & s1 & s & Hp & _ & Hrun & Hlog & _)].
  - pose proof (run_not_return E fuel r o s Hrun Ho) as ->.
    rewrite Hrun at 1. simpl. rewrite prefix_log. by apply calendar_calls_all.
  - rewrite Hrun; simpl. rewrite Hlog, calendar_calls_app, calendar_calls_persist.
    pose proof (prefix_log E fuel r) as Hpl. rewrite Hp in Hpl; simpl in Hpl.
    rewrite Hpl, app_nil_r. by apply calendar_calls_all.
Qed.

(** Whatever the calendar does and however the run ends, its calendar
    calls are: none with [--no_cal]; else the creation of the event, and
    after a refusal one re-authentication followed by retries, each
    after a sleep of one second and all for the same event. *)
Theorem run_calendar_calls (E : env) (fuel : nat) (r : rc) :
  exists n, n <= fuel
    /\ calendar_calls (st_log (run E fuel r).2)
       = if rc_no_cal r then []
         else AddToGoogleCalendar (event_of r) (add_to_google_calendar E 0 (event_of r))
              :: (if add_to_google_calendar E 0 (event_of r) then []
                  else GoogleCalAuthFlow :: turns E (event_of r) 1 n).
Proof. rewrite run_calendar_log. apply calendar_notifier_log. Qed.

(** ** What a run leaves in [rc] *)

Lemma same_args_refl (r : rc) : same_args r r.
Proof. by repeat split. Qed.

Lemma same_args_settled (r : rc) (p : string) : same_args r (settled_rc r p).
Proof. unfold settled_rc. destruct (PyStr.truthy (rc_person r)); by repeat split. Qed.

Lemma same_args_final (r : rc) (payee : string) : same_args r (final_rc r payee).
Proof.
  unfold final_rc. destruct (rc_webinar r), (rc_no_expense r); by repeat split.
Qed.

Lemma same_args_trans (r1 r2 r3 : rc) :
  same_args r1 r2 -> same_args r2 r3 -> same_args r1 r3.
Proof.
  unfold same_args. intros H1 H2.
  repeat match goal with H : _ /\ _ |- _ => destruct H as [? H] end.
  repeat split; congruence.
Qed.

Lemma settle_rc (p : string) (s : state) :
  st_rc (settle p s) = settled_rc (st_rc s) p.
Proof. unfold settle, settled_rc. by destruct (PyStr.truthy _). Qed.

(** The derivation leaves the state as it was or with the presenter
    settled. *)
Lemma derive_state (E : env) (s : state) o s' :
  derive E s = (o, s') ->
  s' = s \/ exists p, presenter_of (st_rc s) = Some p /\ s' = settle p s.
Proof.
  intros H.
  destruct (date_parser_parse E (rc_begin_date (st_rc s))) as [bd|] eqn:H1;
    [|rewrite (derive_bad_begin _ _ H1) in H; injection H as <- <-; by left].
  destruct (date_parser_parse E (rc_end_date (st_rc s))) as [ed|] eqn:H2;
    [|rewrite (derive_bad_end _ _ _ H1 H2) in H; injection H as <- <-; by left].
  destruct (presenter_of (st_rc s)) as [p|] eqn:Hp;
    [|rewrite (derive_no_person _ _ _ _ H1 H2 Hp) in H; injection H as <- <-; by left].
  right. exists p. split; [done|].
  destruct (name_key p) as [nk|] eqn:Hk.
  - rewrite (derive_ok _ _ _ _ _ _ H1 H2 Hp Hk) in H. by injection H as <- <-.
  - rewrite (derive_no_token _ _ _ _ _ H1 H2 Hp Hk) in H. by injection H as <- <-.
Qed.

Lemma prefix_rc (E : env) (fuel : nat) (r : rc) :
  st_rc (prefix E fuel (init r)).2 = r
  \/ exists p, presenter_of r = Some p
               /\ st_rc (prefix E fuel (init r)).2 = settled_rc r p.
Proof.
  unfold prefix, bind.
  destruct (calendar_notifier E fuel (init r)) as [o s0] eqn:Hn.
  destruct (calendar_notifier_frame E _ _ _ _ Hn) as (_ & Hrc & _). simpl in Hrc.
  destruct o as [[]|e|]; simpl; [|by left..].
  destruct (derive E s0) as [o s1] eqn:Hd.
  destruct (derive_state E _ _ _ Hd) as [->|(p & Hp & ->)]; simpl.
  - by left.
  - right. exists p. rewrite Hrc in Hp. by rewrite settle_rc, Hrc.
Qed.

(** [rc] at the end of the inserts. *)
Lemma persist_rc (E : env) (bd ed : date) (p key : string) (s : state) :
  duplicate_guard E key s = (Return ∅, s) ->
  st_rc (persist E bd ed p key s).2
  = final_rc (st_rc s) (default "" (head (authors_of (st_rc s) p))).
Proof.
  intros H. unfold persist. rewrite (bind_return _ _ _ _ _ H).
  unfold final_rc.
  destruct (authors_of_head (st_rc s) p) as [a Ha].
  destruct (rc_webinar (st_rc s)) eqn:Hw;
    [|destruct (rc_no_expense (st_rc s)) eqn:Hn];
    repeat (unfold_m; rewrite ?Hw, ?Hn, ?Ha; simpl); done.
Qed.

(** A run that returns has been through the prefix and the guard. *)
Lemma run_return (E : env) (fuel : nat) (r : rc) (s : state) :
  run E fuel r = (Return tt, s) ->
  exists bd ed p key s0,
    calendar_notifier E fuel (init r) = (Return tt, s0)
    /\ prefix E fuel (init r) = (Return (bd, ed, p, key), settle p s0)
    /\ st_rc s0 = r
    /\ duplicate_guard E key (settle p s0) = (Return ∅, settle p s0)
    /\ s = (persist E bd ed p key (settle p s0)).2.
Proof.
  intros Hrun.
  destruct (run_cases E fuel r)
    as [(o & s' & Hrun' & Ho & _)
       |(bd & ed & p & key & s1 & s' & Hp & Hg & Hrun' & _)];
    rewrite Hrun in Hrun'.
  { by injection Hrun' as <- <-. }
  injection Hrun' as <-.
  pose proof Hp as Hp'.
  apply prefix_return in Hp' as (s0 & l0 & Hn & _ & Hr0 & _ & _ & _ & ->).
  exists bd, ed, p, key, s0. repeat split; try done.
  unfold run in Hrun. rewrite db_updater_prefix, (bind_return _ _ _ _ _ Hp) in Hrun.
  by rewrite Hrun.
Qed.

(** However a run ends, it leaves the arguments and the configuration
    in [rc] as they were; [rc.person] is as it was or, when it was not
    given, the [default_user_id]; and as long as the expense constructor
    has not been called, [rc.status] and the expense attributes are
    untouched. *)
Theorem run_keeps_args (E : env) (fuel : nat) (r : rc) :
  let s := (run E fuel r).2 in
  same_args r (st_rc s)
  /\ (rc_person (st_rc s) = rc_person r
      \/ (PyStr.truthy (rc_person r) = false
          /\ rc_person (st_rc s) = rc_default_user_id r))
  /\ (existsb is_expense_constructor (st_log s) = false ->
      rc_status (st_rc s) = rc_status r
      /\ rc_business (st_rc s) = rc_business r
      /\ rc_payee (st_rc s) = rc_payee r
      /\ rc_purpose (st_rc s) = rc_purpose r
      /\ rc_where (st_rc s) = rc_where r).
Proof.
  assert (forall p, presenter_of r = Some p ->
            rc_person (settled_rc r p) = rc_person r
            \/ (PyStr.truthy (rc_person r) = false
                /\ rc_person (settled_rc r p) = rc_default_user_id r)) as Hperson.
  { intros p Hp. unfold settled_rc, presenter_of in *.
    destruct (PyStr.truthy (rc_person r)); [by left|right]. by subst. }
  destruct (run E fuel r) as [o s] eqn:Hrun. simpl.
  destruct o as [[]|e|].
  - apply run_return in Hrun as (bd & ed & p & key & s0 & _ & Hp & Hr0 & Hg & ->).
    apply prefix_key in Hp as (_ & Hpres & _).
    rewrite (persist_rc E bd ed p key _ Hg), settle_rc, Hr0.
    split; [|split].
    + eapply same_args_trans; [apply (same_args_settled r p)|apply same_args_final].
    + destruct (Hperson p Hpres) as [H|[H1 H2]]; [left|right; split; [done|]];
        unfold final_rc;
        by destruct (rc_webinar (settled_rc r p)), (rc_no_expense (settled_rc r p)).
    + destruct (persist_pass E bd ed p key _ Hg) as (s' & Hs' & Hlog & _).
      rewrite Hs'; simpl. rewrite Hlog, !existsb_app, settle_rc, Hr0.
      unfold final_rc, expense_calls, settled_rc.
      destruct (PyStr.truthy (rc_person r));
        destruct (rc_webinar r) eqn:Hw, (rc_no_expense r) eqn:Hn; simpl;
        rewrite ?Hw, ?Hn; simpl; rewrite ?orb_true_r; try done.
  - assert (Raise e ≠ Return tt) as Ho by done.
    pose proof (run_not_return E fuel r _ s Hrun Ho) as ->.
    destruct (prefix_rc E fuel r) as [->|(p & Hp & ->)].
    + split; [apply same_args_refl|]. split; [by left|done].
    + split; [apply same_args_settled|]. split; [by apply Hperson|].
      intros _. unfold settled_rc. by destruct (PyStr.truthy (rc_person r)).
  - assert (@OutOfFuel unit ≠ Return tt) as Ho by done.
    pose proof (run_not_return E fuel r _ s Hrun Ho) as ->.
    destruct (prefix_rc E fuel r) as [->|(p & Hp & ->)].
    + split; [apply same_args_refl|]. split; [by left|done].
    + split; [apply same_args_settled|]. split; [by apply Hperson|].
      intros _. unfold settled_rc. by destruct (PyStr.truthy (rc_person r)).
Qed.

(** ** What a run that returns has written *)

Lemma printed_app (l1 l2 : list call) :
  printed (l1 ++ l2) = printed l1 ++ printed l2.
Proof. unfold printed. apply omap_app. Qed.

Lemma printed_calendar (l : list call) :
  forallb is_calendar_call l = true -> printed l = [].
Proof.
  induction l as [|c l IH]; simpl; [done|].
  intros [Hc Hl]%andb_prop. destruct c; try done; by apply IH.
Qed.

(** A run that returns has inserted the presentation, with the key as
    its [_id], into [rc.coll], then the expense into "expenses" unless
    the run is a webinar or [--no-expense] is given; the store holds
    these documents, all in [rc.database]; and one line per insert has
    been printed. *)
Theorem run_writes (E : env) (fuel : nat) (r : rc) (s : state) :
  run E fuel r = (Return tt, s) ->
  let colls := if rc_webinar r || rc_no_expense r then [] else [EXPENSES_COLL] in
  exists key d,
    key_reached E fuel r = Some key
    /\ presentation_record E fuel r = Some d
    /\ d !! "_id" = Some (VStr key)
    /\ fst <$> inserted (st_log s) = rc_coll r :: colls
    /\ st_store s = (fun c => (rc_database r, c.1, c.2)) <$> inserted (st_log s)
    /\ printed (st_log s)
       = (fun c => key +:+ " has been added in " +:+ c) <$> (TARGET_COLL :: colls).
Proof.
  intros Hrun colls.
  destruct (run_cases E fuel r)
    as [(o & s' & Hrun' & Ho & _)
       |(bd & ed & p & key & s1 & s' & Hp & Hg & Hrun' & Hlog & Hstore & _)];
    rewrite Hrun in Hrun'.
  { by injection Hrun' as <- <-. }
  injection Hrun' as <-.
  pose proof Hp as Hp'.
  apply prefix_return in Hp' as (s0 & l0 & _ & _ & Hr0 & _ & Hl0 & Hall & ->).
  destruct (settle_fields p s0) as (_ & _ & _ & Hw & Hn & _ & Hcoll & _).
  destruct (settle_frame p s0) as (Hlog0 & _).
  rewrite Hr0 in *.
  exists key, (build_pdoc r key (authors_of r p) bd ed ∅).
  assert (inserted (st_log s)
          = inserted (presentation_calls (st_rc (settle p s0)) bd ed p key
                      ++ expense_calls E (st_rc (settle p s0)) bd ed p key)) as Hins.
  { rewrite Hlog, Hlog0, Hl0, inserted_app. by rewrite (inserted_calendar _ Hall). }
  split; [unfold key_reached; by rewrite Hp|].
  split.
  { unfold presentation_record. rewrite Hrun; simpl.
    rewrite Hins, inserted_app, inserted_presentation; simpl.
    by rewrite build_pdoc_settle, authors_of_settle, Hr0. }
  split; [apply build_pdoc_id|].
  split.
  { rewrite Hins, inserted_app, inserted_presentation, Hcoll. simpl. f_equal.
    unfold expense_calls, colls. rewrite Hw, Hn.
    by destruct (rc_webinar r || rc_no_expense r). }
  split; [by rewrite Hstore, Hins|].
  rewrite Hlog, Hlog0, Hl0, !printed_app, (printed_calendar _ Hall). simpl. f_equal.
  unfold expense_calls, colls. rewrite Hw, Hn.
  by destruct (rc_webinar r || rc_no_expense r).
Qed.

Lemma run_writes_witness :
  fst <$> inserted (st_log (run (env_of cal_ok []) 0 jane).2)
  = [TARGET_COLL; EXPENSES_COLL]
  /\ printed (st_log (run (env_of cal_ok []) 0 jane).2)
     = ["2305jd_mitboston has been added in presentations";
        "2305jd_mitboston has been added in expenses"].
Proof.
  destruct (run (env_of cal_ok []) 0 jane) as [o s] eqn:Hrun.
  assert (o = Return tt) as ->
    by (apply (f_equal fst) in Hrun; vm_compute in Hrun; congruence).
  destruct (run_writes (env_of cal_ok []) 0 jane s Hrun)
    as (key & d & Hk & _ & _ & Hc & _ & Hpr).
  vm_compute in Hk. injection Hk as <-.
  simpl. by rewrite Hc, Hpr.
Defined.

(** ** The fields of the record *)

Ltac lookup_pdoc :=
  unfold build_pdoc, update; simpl;
  repeat match goal with
         | |- context [if ?b then _ else _] => destruct b; simpl
         end;
  repeat (rewrite lookup_insert_ne by done);
  rewrite ?lookup_insert_eq, ?lookup_empty; try done.

Lemma build_pdoc_core (r : rc) (key : string) (authors : list string) (bd ed : date) :
  let d := build_pdoc r key authors bd ed ∅ in
  d !! "abstract" = Some (VStr (rc_abstract r))
  /\ d !! "begin_date" = Some (VDate bd)
  /\ d !! "end_date" = Some (VDate ed)
  /\ d !! "project" = Some (VList ["all"])
  /\ d !! "status" = Some (VStr (rc_status r))
  /\ d !! "title" = Some (VStr (rc_title r))
  /\ d !! "type" = Some (VStr (rc_type r)).
Proof. repeat split; lookup_pdoc. Qed.

Lemma build_pdoc_notes (r : rc) (key : string) (authors : list string) (bd ed : date) :
  build_pdoc r key authors bd ed ∅ !! "notes"
  = if truthy_list (rc_notes r) then VList <$> rc_notes r else None.
Proof.
  unfold build_pdoc.
  destruct (rc_notes r) as [[|n notes]|]; simpl; lookup_pdoc.
Qed.

Lemma build_pdoc_dom (r : rc) (key : string) (authors : list string) (bd ed : date) :
  dom (build_pdoc r key authors bd ed ∅) = keys_of r.
Proof.
  unfold build_pdoc, keys_of, is_seminar, CORE_KEYS, update; simpl.
  destruct (truthy_list (rc_notes r)), (rc_webinar r),
    (bool_decide (rc_type r ∈ ["seminar"; "colloquium"]));
    simpl; rewrite !dom_insert_L, dom_empty_L; set_solver.
Qed.

Lemma purpose_of_settle (p : string) (s : state) :
  purpose_of (st_rc (settle p s)) = purpose_of (st_rc s).
Proof. unfold settle. by destruct (PyStr.truthy _). Qed.

(** The expense of a run that returns and is neither a webinar nor run
    with [--no-expense]: the constructor is called with the key, the
    parsed dates and an [rc] whose payee is the first author, whose
    purpose is "give <type> presentation at <name>, <place>", whose
    [where] is "tbd", whose status is "unsubmitted" and which is not a
    business expense; its result goes to "expenses" and these are the
    last calls of the run; this [rc] is the one the run leaves, while
    the presentation keeps the status it was given. *)
Theorem expense_context (E : env) (fuel : nat) (r : rc) (s : state) :
  run E fuel r = (Return tt, s) ->
  rc_webinar r = false -> rc_no_expense r = false ->
  exists key bd ed p payee l,
    key_reached E fuel r = Some key
    /\ date_parser_parse E (rc_begin_date r) = Some bd
    /\ date_parser_parse E (rc_end_date r) = Some ed
    /\ presenter_of r = Some p
    /\ head (authors_of r p) = Some payee
    /\ st_log s = l ++ [ExpenseConstructor key bd ed (st_rc s);
                        InsertOne (rc_database r) EXPENSES_COLL
                          (expense_constructor E key bd ed (st_rc s));
                        Print (key +:+ " has been added in " +:+ EXPENSES_COLL)]
    /\ rc_payee (st_rc s) = Some payee
    /\ rc_purpose (st_rc s) = Some (purpose_of r)
    /\ rc_where (st_rc s) = Some "tbd"
    /\ rc_status (st_rc s) = "unsubmitted"
    /\ rc_business (st_rc s) = Some false
    /\ (presentation_record E fuel r ≫= (.!! "status")) = Some (VStr (rc_status r)).
Proof.
  intros Hrun Hw Hn.
  pose proof Hrun as Hret.
  apply run_return in Hret as (bd & ed & p & key & s0 & Hcal & Hp & Hr0 & Hg & Hs).
  destruct (persist_pass E bd ed p key _ Hg) as (s' & Hs' & Hlog & _).
  pose proof (persist_rc E bd ed p key _ Hg) as Hrc.
  rewrite Hs' in Hs, Hrc. simpl in Hs, Hrc. subst s'.
  destruct (settle_fields p s0) as (_ & _ & _ & Hw1 & Hn1 & _ & _ & Hdb).
  rewrite Hr0 in Hw1, Hn1, Hdb.
  destruct (authors_of_head r p) as [payee Hpayee].
  pose proof (authors_of_settle p p s0) as Hauth. rewrite Hr0 in Hauth.
  pose proof (purpose_of_settle p s0) as Hpurpose. rewrite Hr0 in Hpurpose.
  unfold final_rc in Hrc. rewrite Hw1, Hw, Hn1, Hn, Hauth, Hpayee in Hrc. simpl in Hrc.
  unfold expense_calls in Hlog. rewrite Hw1, Hw, Hn1, Hn, Hauth, Hpayee, Hdb in Hlog.
  simpl in Hlog. rewrite <- Hrc in Hlog.
  pose proof Hp as Hp'.
  apply prefix_return in Hp' as (s0' & l0 & Hcal' & Hd & _).
  rewrite Hcal in Hcal'. injection Hcal' as <-.
  apply derive_return in Hd as (Hb & He & Hpres & _). rewrite Hr0 in Hb, He, Hpres.
  destruct (run_writes E fuel r s Hrun) as (key' & d & Hk & Hrec & _).
  assert (d = build_pdoc r key (authors_of r p) bd ed ∅) as ->.
  { apply presentation_record_built in Hrec
      as (bd' & ed' & p' & k' & s1' & s'' & Hp' & _ & ->).
    rewrite Hp in Hp'. by injection Hp' as <- <- <- <- _. }
  exists key, bd, ed, p, payee,
    (st_log (settle p s0) ++ presentation_calls (st_rc (settle p s0)) bd ed p key).
  split; [unfold key_reached; by rewrite Hp|].
  split; [done|]. split; [done|]. split; [done|]. split; [done|].
  split; [by rewrite Hlog, <- app_assoc|].
  rewrite Hrc. unfold expense_ctx; simpl. rewrite Hpurpose.
  do 5 (split; [done|]).
  rewrite Hrec. simpl.
  by destruct (build_pdoc_core r key (authors_of r p) bd ed) as (_ & _ & _ & _ & H & _).
Qed.

Lemma expense_context_witness :
  let s := (run (env_of cal_ok []) 0 jane).2 in
  rc_payee (st_rc s) = Some "Jane Doe"
  /\ rc_purpose (st_rc s) = Some "give seminar presentation at Physics, MIT Boston"
  /\ rc_status (st_rc s) = "unsubmitted".
Proof.
  destruct (run (env_of cal_ok []) 0 jane) as [o s] eqn:Hrun.
  assert (o = Return tt) as ->
    by (apply (f_equal fst) in Hrun; vm_compute in Hrun; congruence).
  destruct (expense_context (env_of cal_ok []) 0 jane s Hrun eq_refl eq_refl)
    as (key & bd & ed & p & payee & l & _ & _ & _ & Hp & Hh & _ & Hpay & Hpur & _ & Hst & _).
  vm_compute in Hp. injection Hp as <-.
  vm_compute in Hh. injection Hh as <-.
  simpl. by rewrite Hpay, Hpur, Hst.
Defined.

(** ** The record of a run *)

Lemma prefix_parts (E : env) (fuel : nat) (r : rc) (bd ed : date) (p key : string)
    (s : state) :
  prefix E fuel (init r) = (Return (bd, ed, p, key), s) ->
  date_parser_parse E (rc_begin_date r) = Some bd
  /\ date_parser_parse E (rc_end_date r) = Some ed
  /\ presenter_of r = Some p
  /\ exists nk, name_key p = Some nk /\ key = key_of r bd nk.
Proof.
  intros Hp.
  apply prefix_return in Hp as (s0 & l0 & _ & Hd & Hr & _).
  apply derive_return in Hd as (Hb & He & Hpres & Hk & _).
  by rewrite Hr in *.
Qed.

(** The keys of the presentation record of a run are the nine core
    keys, "notes" when notes are given, "webinar" for a webinar, and
    the two keys of its type; nothing else of [rc] is stored. *)
Theorem record_keys (E : env) (fuel : nat) (r : rc) (d : doc) :
  presentation_record E fuel r = Some d ->
  dom d = keys_of r.
Proof.
  intros (bd & ed & p & key & s1 & s & _ & _ & ->)%presentation_record_built.
  apply build_pdoc_dom.
Qed.

Lemma record_keys_witness :
  exists d, presentation_record (env_of cal_ok []) 0 jane = Some d
            /\ dom d = CORE_KEYS ∪ {[ "institution"; "department" ]}.
Proof.
  eexists. split; [exact jane_record|].
  rewrite (record_keys _ _ _ _ jane_record).
  unfold keys_of. simpl. set_solver.
Defined.

(** The values of the presentation record of a run: the key the run
    arrived at, the dates as parsed from [rc.begin_date] and
    [rc.end_date], the authors given or else the presenter alone, the
    notes when given, the project ["all"], and the abstract, status,
    title and type of [rc]. *)
Theorem record_values (E : env) (fuel : nat) (r : rc) (d : doc) :
  presentation_record E fuel r = Some d ->
  exists key bd ed p,
    key_reached E fuel r = Some key
    /\ date_parser_parse E (rc_begin_date r) = Some bd
    /\ date_parser_parse E (rc_end_date r) = Some ed
    /\ presenter_of r = Some p
    /\ d !! "_id" = Some (VStr key)
    /\ d !! "begin_date" = Some (VDate bd)
    /\ d !! "end_date" = Some (VDate ed)
    /\ d !! "authors"
       = Some (VList (if truthy_list (rc_authors r)
                      then default [] (rc_authors r) else [p]))
    /\ d !! "notes" = (if truthy_list (rc_notes r) then VList <$> rc_notes r else None)
    /\ d !! "project" = Some (VList ["all"])
    /\ d !! "abstract" = Some (VStr (rc_abstract r))
    /\ d !! "status" = Some (VStr (rc_status r))
    /\ d !! "title" = Some (VStr (rc_title r))
    /\ d !! "type" = Some (VStr (rc_type r)).
Proof.
  intros (bd & ed & p & key & s1 & s & Hp & _ & ->)%presentation_record_built.
  pose proof (prefix_parts E fuel r bd ed p key s1 Hp) as (Hb & He & Hpres & _).
  destruct (build_pdoc_core r key (authors_of r p) bd ed)
    as (Ha & Hbd & Hed & Hpr & Hst & Hti & Hty).
  exists key, bd, ed, p.
  split; [unfold key_reached; by rewrite Hp|].
  do 3 (split; [done|]).
  split; [apply build_pdoc_id|].
  do 2 (split; [done|]).
  split.
  { rewrite build_pdoc_authors. unfold authors_of.
    by destruct (truthy_list (rc_authors r)). }
  split; [apply build_pdoc_notes|]. done.
Qed.

Lemma record_values_witness :
  exists d, presentation_record (env_of cal_ok []) 0 jane = Some d
            /\ d !! "begin_date" = Some (VDate d_2023_05_10)
            /\ d !! "status" = Some (VStr "accepted").
Proof.
  eexists. split; [exact jane_record|].
  destruct (record_values _ _ _ _ jane_record)
    as (key & bd & ed & p & _ & Hb & _ & _ & _ & Hbd & _ & _ & _ & _ & _ & Hst & _).
  vm_compute in Hb. injection Hb as <-. by split.
Defined.

(** ** How a run ends *)

Lemma filter_id_missing (key : string) (coll : list doc) (s : state) :
  Exists (fun d => d !! "_id" = None) coll ->
  filter_id key coll s = (Raise (KeyError "_id"), s).
Proof.
  induction coll as [|d coll IH]; intros H; [by inversion H|].
  simpl. unfold bind, getitem.
  destruct (d !! "_id") as [v|] eqn:Hd; simpl; [|done].
  rewrite IH; [done|]. inversion H as [? ? Hh|? ? Ht]; subst; [congruence|done].
Qed.

(** A snapshot with a record that has no [_id] stops every run that
    gets to the guard, with [KeyError('_id')] and nothing inserted,
    whether or not the key is in the snapshot. *)
Theorem run_missing_id (E : env) (fuel : nat) (r : rc) (key : string) :
  key_reached E fuel r = Some key ->
  Exists (fun d => d !! "_id" = None) (gtx_coll E) ->
  exists s,
    run E fuel r = (Raise (KeyError "_id"), s)
    /\ inserted (st_log s) = [] /\ st_store s = [].
Proof.
  intros Hk Hmiss. unfold key_reached in Hk.
  destruct (prefix E fuel (init r)) as [[[[[bd ed] p] k]|e|] s1] eqn:Hp; try done.
  injection Hk as ->.
  exists s1. destruct (prefix_frame E _ _ _ _ Hp) as (Hall & Hst & _).
  unfold run. rewrite db_updater_prefix, (bind_return _ _ _ _ _ Hp).
  assert (duplicate_guard E key s1 = (Raise (KeyError "_id"), s1)) as Hg.
  { unfold duplicate_guard, bind. by rewrite (filter_id_missing key _ s1 Hmiss). }
  rewrite (persist_abort E bd ed p key s1 _ Hg).
  repeat split; try done. by apply inserted_calendar.
Qed.

Lemma run_missing_id_witness :
  (run (env_of cal_ok [stored "2305jd_mitboston"; ∅]) 0 jane).1
  = Raise (KeyError "_id").
Proof.
  destruct (run_missing_id (env_of cal_ok [stored "2305jd_mitboston"; ∅]) 0 jane
              "2305jd_mitboston") as (s & -> & _).
  - by vm_compute.
  - right. by left.
  - reflexivity.
Defined.



(** ** The shape of the initials and of the derived key *)

Section Plain.

Import PyStr.






Lemma no_ws_casefold (s : string) : no_ws (casefold s) = no_ws s.
Proof.
  induction s as [|c s IH]; simpl; [done|].
  by rewrite isspace_casefold_char, IH.
Qed.


Lemma no_ws_take (n : nat) (s : string) : no_ws s = true -> no_ws (take_str n s) = true.
Proof.
  revert s; induction n as [|n IH]; intros [|c s]; simpl; try done.
  intros [Hc Hs]%andb_prop. by rewrite Hc, IH.
Qed.









End Plain.







(** ** The target database *)

Lemma target_database_given (dbs : list (gmap string string)) (r : rc) :
  PyStr.truthy (Some (rc_database r)) = true ->
  target_database dbs (init r) = (Return tt, init (set_coll TARGET_COLL r)).
Proof.
  intros H. unfold target_database, bind, modify_rc, get_rc; simpl.
  simpl in H. by rewrite H.
Qed.

Lemma target_database_default (dbs : list (gmap string string)) (r : rc) :
  PyStr.truthy (Some (rc_database r)) = false ->
  target_database dbs (init r)
  = match head dbs with
    | None => (Raise IndexError, init (set_coll TARGET_COLL r))
    | Some db =>
        match db !! "name" with
        | Some name => (Return tt, init (set_database name (set_coll TARGET_COLL r)))
        | None => (Raise (KeyError "name"), init (set_coll TARGET_COLL r))
        end
    end.
Proof.
  intros H. unfold target_database, bind, modify_rc, get_rc; simpl.
  simpl in H. rewrite H; simpl.
  destruct (head dbs) as [db|]; simpl; [|done].
  by destruct (db !! "name").
Qed.

(** The helper writes to the database given with [--database] or else
    to the first one of the configuration, the presentation going to
    "presentations"; without either it stops with [IndexError], and
    with a first database that has no name with [KeyError('name')],
    before the calendar is called. *)
Theorem helper_target (E : env) (dbs : list (gmap string string)) (fuel : nat) (r : rc) :
  (forall s, helper E dbs fuel r = (Return tt, s) ->
     exists db,
       (if PyStr.truthy (Some (rc_database r)) then db = rc_database r
        else head dbs ≫= (.!! "name") = Some db)
       /\ fst <$> inserted (st_log s)
          = TARGET_COLL :: (if rc_webinar r || rc_no_expense r then []
                            else [EXPENSES_COLL])
       /\ st_store s = (fun c => (db, c.1, c.2)) <$> inserted (st_log s)
       /\ rc_database (st_rc s) = db)
  /\ (PyStr.truthy (Some (rc_database r)) = false -> head dbs = None ->
      helper E dbs fuel r = (Raise IndexError, init (set_coll TARGET_COLL r)))
  /\ (forall db, PyStr.truthy (Some (rc_database r)) = false ->
        head dbs = Some db -> db !! "name" = None ->
        helper E dbs fuel r = (Raise (KeyError "name"), init (set_coll TARGET_COLL r))).
Proof.
  assert (forall r' s, run E fuel r' = (Return tt, s) ->
            rc_coll r' = TARGET_COLL ->
            rc_webinar r' = rc_webinar r -> rc_no_expense r' = rc_no_expense r ->
            fst <$> inserted (st_log s)
            = TARGET_COLL :: (if rc_webinar r || rc_no_expense r then []
                              else [EXPENSES_COLL])
            /\ st_store s = (fun c => (rc_database r', c.1, c.2)) <$> inserted (st_log s)
            /\ rc_database (st_rc s) = rc_database r') as Hrun.
  { intros r' s Hr Hcoll Hw Hn.
    destruct (run_writes E fuel r' s Hr) as (key & d & _ & _ & _ & Hc & Hst & _).
    rewrite Hcoll, Hw, Hn in Hc. split; [done|]. split; [done|].
    pose proof (run_keeps_args E fuel r') as [Hsame _]. rewrite Hr in Hsame.
    by destruct Hsame as (_ & _ & _ & _ & _ & _ & _ & _ & _ & _ & Hdb & _). }
  unfold helper. split; [|split].
  - intros s. destruct (PyStr.truthy (Some (rc_database r))) eqn:Ht.
    + rewrite (bind_return _ _ _ _ _ (target_database_given dbs r Ht)).
      intros Hr. exists (rc_database r). split; [done|].
      by apply (Hrun (set_coll TARGET_COLL r) s Hr).
    + pose proof (target_database_default dbs r Ht) as Htd.
      destruct (head dbs) as [db|]; simpl;
        [|by rewrite (bind_raise _ _ _ _ _ Htd)].
      destruct (db !! "name") as [name|] eqn:Hname;
        [|by rewrite (bind_raise _ _ _ _ _ Htd)].
      rewrite (bind_return _ _ _ _ _ Htd).
      intros Hr. exists name. split; [done|].
      by apply (Hrun (set_database name (set_coll TARGET_COLL r)) s Hr).
  - intros Ht Hh. pose proof (target_database_default dbs r Ht) as Htd.
    rewrite Hh in Htd. by rewrite (bind_raise _ _ _ _ _ Htd).
  - intros db Ht Hh Hname. pose proof (target_database_default dbs r Ht) as Htd.
    rewrite Hh, Hname in Htd. by rewrite (bind_raise _ _ _ _ _ Htd).
Qed.

Lemma helper_target_witness :
  let cli := with_type "seminar"
               (with_person "Jane Doe"
                  (args "Physics" "MIT Boston" "2023-05-10" "2023-05-12" "")) in
  let dbs : list (gmap string string) := [{[ "name" := "group" ]}; {[ "name" := "public" ]}] in
  rc_database (st_rc (helper (env_of cal_ok []) dbs 0 cli).2) = "group"
  /\ fst <$> inserted (st_log (helper (env_of cal_ok []) dbs 0 cli).2)
     = [TARGET_COLL; EXPENSES_COLL]
  /\ helper (env_of cal_ok []) [] 0 cli = (Raise IndexError, init (set_coll TARGET_COLL cli)).
Proof.
  intros cli dbs.
  destruct (helper_target (env_of cal_ok []) dbs 0 cli) as (H1 & _).
  destruct (helper_target (env_of cal_ok []) [] 0 cli) as (_ & H2 & _).
  split; [|split; [|by apply H2]];
    destruct (helper (env_of cal_ok []) dbs 0 cli) as [o s] eqn:Hh;
    (assert (o = Return tt) as ->
       by (apply (f_equal fst) in Hh; vm_compute in Hh; congruence));
    destruct (H1 s eq_refl) as (db & Hdb & Hc & _ & Hfin);
    vm_compute in Hdb; injection Hdb as <-; simpl.
  - exact Hfin.
  - exact Hc.
Defined.
